(** * GenAI data-analysis assistant: storage, profiler, chart selector,
      insight client and orchestrator

    A shallow embedding of [core/storage.py], [core/analyzer.py],
    [core/llm_client.py], [core/agent.py] and two views of [app.py], and
    the properties of the analysis pipeline proved over it.

    Conventions.
    - Python [int] is [Z]; a Python [float] is a value of an abstract type
      [F] with the four operations the profiler uses ([PyFloatOps]).
    - [str] is [string], the UTF-8 bytes of the text; [None] is [None] of
      an option type, or [JNull] where the value comes out of a JSON
      document.
    - A Python call that can raise returns a [py_result].  [try/except
      Exception] is [try_except].
    - pandas, requests, sqlite3's clock and the report composer are the
      environment: their answers are passed in as functions. *)

From Stdlib Require Import ZArith QArith Qround Lia Ascii String.
From stdpp Require Import base option list strings gmap.

Open Scope string_scope.
Open Scope list_scope.
Open Scope Z_scope.

(** ** Python basics *)

Inductive exn :=
  | IndexError | KeyError | TypeError | AttributeError | ValueError
  | JSONDecodeError | RequestException | OSError | EmptyDataError
  | ParserError | SqliteError.

Inductive py_result (A : Type) :=
  | Ret (a : A)
  | Raise (e : exn).
Arguments Ret {A} a.
Arguments Raise {A} e.

Definition py_bind {A B} (m : py_result A) (k : A → py_result B) : py_result B :=
  match m with
  | Ret a => k a
  | Raise e => Raise e
  end.

#[global] Instance py_result_ret : MRet py_result := λ A a, Ret a.
#[global] Instance py_result_bind : MBind py_result := λ A B k m, py_bind m k.
#[global] Instance py_result_fmap : FMap py_result :=
  λ A B f m, py_bind m (λ a, Ret (f a)).

(** [try: body / except Exception: handler] *)
Definition try_except {A} (body : py_result A) (handler : exn → py_result A)
  : py_result A :=
  match body with
  | Ret a => Ret a
  | Raise e => handler e
  end.

(** A Python number as the profiler produces it: [0] is an [int], the
    result of [round(..., 2)] on a float is a [float]. *)
Inductive pynum (F : Type) :=
  | PyInt (z : Z)
  | PyFloat (f : F).
Arguments PyInt {F} z.
Arguments PyFloat {F} f.

(** The float operations of [Agent.run_analysis], with the operand kinds
    Python gives them there. *)
Class PyFloatOps (F : Type) := {
  int_truediv : Z → Z → F;     (* [a / b], both [int], [b] not 0 *)
  int_sub_float : Z → F → F;   (* [a - x], [a] an [int] *)
  float_mul_int : F → Z → F;   (* [x * a], [a] an [int] *)
  py_round : F → Z → F         (* [round(x, ndigits)] *)
}.

(** *** Strings *)

Definition is_upper_ascii (c : ascii) : bool :=
  let n := nat_of_ascii c in (Nat.leb 65 n && Nat.leb n 90)%bool.

(** [str.lower()] on the ASCII range. *)
Definition lower_ascii (c : ascii) : ascii :=
  if is_upper_ascii c then ascii_of_nat (nat_of_ascii c + 32) else c.

Fixpoint lower (s : string) : string :=
  match s with
  | EmptyString => EmptyString
  | String c rest => String (lower_ascii c) (lower rest)
  end.

(** [s.rsplit('.', 1)[1]]: the text after the last dot; [IndexError]
    when [s] holds no dot (the split then has one element). *)
Fixpoint after_last_dot (s : string) : option string :=
  match s with
  | EmptyString => None
  | String c rest =>
      match after_last_dot rest with
      | Some t => Some t
      | None => if Ascii.eqb c "." then Some rest else None
      end
  end.

Definition rsplit_dot_1 (s : string) : py_result string :=
  match after_last_dot s with
  | Some t => Ret t
  | None => Raise IndexError
  end.

(** [s.replace(" ", "_")] *)
Fixpoint replace_space (s : string) : string :=
  match s with
  | EmptyString => EmptyString
  | String c rest =>
      String (if Ascii.eqb c " " then "_"%char else c) (replace_space rest)
  end.

(** Texts are kept as their UTF-8 bytes.  The characters [str.strip]
    removes are those [str.isspace] holds for: U+0009 to U+000D,
    U+001C to U+001F, U+0020, U+0085, U+00A0, U+1680, U+2000 to U+200A,
    U+2028, U+2029, U+202F, U+205F and U+3000.  [is_space] is the test
    for a character below U+0080, which is one byte. *)
Definition is_space (c : ascii) : bool :=
  let n := nat_of_ascii c in
  (Nat.eqb n 32 || (Nat.leb 9 n && Nat.leb n 13) || (Nat.leb 28 n && Nat.leb n 31))%bool.

Definition byte_is (n : nat) (c : ascii) : bool := Nat.eqb (nat_of_ascii c) n.

(** The whitespace characters of two bytes: U+0085 and U+00A0. *)
Definition is_space2 (a b : ascii) : bool :=
  (byte_is 194 a && (byte_is 133 b || byte_is 160 b))%bool.

(** The whitespace characters of three bytes: U+1680, U+2000 to U+200A,
    U+2028, U+2029, U+202F, U+205F and U+3000. *)
Definition is_space3 (a b c : ascii) : bool :=
  ((byte_is 225 a && byte_is 154 b && byte_is 128 c)
   || (byte_is 226 a && byte_is 128 b
       && ((Nat.leb 128 (nat_of_ascii c) && Nat.leb (nat_of_ascii c) 138)
           || byte_is 168 c || byte_is 169 c || byte_is 175 c))
   || (byte_is 226 a && byte_is 129 b && byte_is 159 c)
   || (byte_is 227 a && byte_is 128 b && byte_is 128 c))%bool.

(** The bytes after one whitespace character at the head, if there is
    one. *)
Definition drop_space (l : list ascii) : option (list ascii) :=
  match l with
  | a :: r1 =>
      if is_space a then Some r1
      else match r1 with
           | b :: r2 =>
               if is_space2 a b then Some r2
               else match r2 with
                    | c :: r3 => if is_space3 a b c then Some r3 else None
                    | [] => None
                    end
           | [] => None
           end
  | [] => None
  end.

(** The same at the end of the text, on its bytes in reverse order. *)
Definition drop_space_rev (l : list ascii) : option (list ascii) :=
  match l with
  | c :: r1 =>
      if is_space c then Some r1
      else match r1 with
           | b :: r2 =>
               if is_space2 b c then Some r2
               else match r2 with
                    | a :: r3 => if is_space3 a b c then Some r3 else None
                    | [] => None
                    end
           | [] => None
           end
  | [] => None
  end.

(** Take a step as long as there is one; [fuel] bounds the steps. *)
Fixpoint drop_while (step : list ascii → option (list ascii)) (fuel : nat)
    (l : list ascii) : list ascii :=
  match fuel with
  | O => l
  | S fuel' =>
      match step l with
      | Some rest => drop_while step fuel' rest
      | None => l
      end
  end.

Definition lstrip_bytes (l : list ascii) : list ascii :=
  drop_while drop_space (length l) l.

Definition rstrip_bytes (l : list ascii) : list ascii :=
  reverse (drop_while drop_space_rev (length l) (reverse l)).

(** [s.lstrip()] *)
Definition lstrip (s : string) : string :=
  string_of_list_ascii (lstrip_bytes (list_ascii_of_string s)).

(** [s.rstrip()] *)
Definition rstrip (s : string) : string :=
  string_of_list_ascii (rstrip_bytes (list_ascii_of_string s)).

(** [s.strip()] *)
Definition strip (s : string) : string := rstrip (lstrip s).

Definition ends_with_slash (s : string) : bool :=
  match String.rev s with
  | String c _ => Ascii.eqb c "/"
  | EmptyString => false
  end.

(** [os.path.join(a, b)] (POSIX) for two components. *)
Definition path_join (a b : string) : string :=
  match b with
  | String "/" _ => b
  | _ => if (String.eqb a "" || ends_with_slash a)%bool then a +:+ b
         else a +:+ "/" +:+ b
  end.

#[local] Set Warnings "-register-all".

(** *** Values decoded from JSON

    What [response.json()] returns: [None], [bool], a number, [str],
    [list], [dict]. *)
Inductive json :=
  | JNull
  | JBool (b : bool)
  | JNum (q : Q)
  | JStr (s : string)
  | JArr (items : list json)
  | JObj (fields : list (string * json)).

(** Python's truth value of such a value. *)
Definition truthy (v : json) : bool :=
  match v with
  | JNull => false
  | JBool b => b
  | JNum q => negb (Qnum q =? 0)
  | JStr s => negb (String.eqb s "")
  | JArr items => negb (Nat.eqb (length items) 0)
  | JObj fields => negb (Nat.eqb (length fields) 0)
  end.

Fixpoint assoc (key : string) (fields : list (string * json)) : option json :=
  match fields with
  | [] => None
  | (k, v) :: rest => if String.eqb k key then Some v else assoc key rest
  end.

(** [v.get(key, default)] *)
Definition py_get (v : json) (key : string) (default : json) : py_result json :=
  match v with
  | JObj fields => Ret (match assoc key fields with Some x => x | None => default end)
  | _ => Raise AttributeError
  end.

(** [v.strip()] *)
Definition py_strip (v : json) : py_result json :=
  match v with
  | JStr s => Ret (JStr (strip s))
  | _ => Raise AttributeError
  end.

(** [v[key]] with a [str] key *)
Definition py_item (v : json) (key : string) : py_result json :=
  match v with
  | JObj fields =>
      match assoc key fields with Some x => Ret x | None => Raise KeyError end
  | _ => Raise TypeError
  end.

(** [v[0]] *)
Definition py_item_0 (v : json) : py_result json :=
  match v with
  | JArr (x :: _) => Ret x
  | JArr [] => Raise IndexError
  | JStr (String c _) => Ret (JStr (String c EmptyString))
  | JStr EmptyString => Raise IndexError
  | JObj _ => Raise KeyError
  | _ => Raise TypeError
  end.

(** ** pandas: the tabular structure *)

Module Pandas.

(** What [select_dtypes] distinguishes: [number] (int64, float64, ...),
    [object] (text), and the rest (bool, datetime64, category, ...). *)
Inductive dtype := DNumber | DObject | DOther.

#[global] Instance dtype_eq_dec : EqDecision dtype.
Proof. solve_decision. Defined.

(** A cell value; a number's magnitude plays no part below. *)
Inductive value :=
  | VNum (z : Z)
  | VStr (s : string)
  | VBool (b : bool).

#[global] Instance value_eq_dec : EqDecision value.
Proof. solve_decision. Defined.

(** [None] is a missing cell (NaN, None, NaT). *)
Definition cell := option value.

Record column := {
  col_name : string;
  col_dtype : dtype;
  col_cells : list cell
}.

#[global] Instance column_eq_dec : EqDecision column.
Proof. solve_decision. Defined.

(** The frame: its index length and its columns, in order. *)
Record DataFrame := {
  df_index : nat;
  df_columns : list column
}.

(** Every column is as long as the index. *)
Definition well_formed (df : DataFrame) : Prop :=
  Forall (λ c, length (col_cells c) = df_index df) (df_columns df).

(** [df.shape] *)
Definition shape (df : DataFrame) : Z * Z :=
  (Z.of_nat (df_index df), Z.of_nat (length (df_columns df))).

(** [df.empty]: some axis has length 0. *)
Definition empty (df : DataFrame) : bool :=
  (Nat.eqb (df_index df) 0 || Nat.eqb (length (df_columns df)) 0)%bool.

Definition is_number (c : column) : bool :=
  bool_decide (col_dtype c = DNumber).

Definition is_object (c : column) : bool :=
  bool_decide (col_dtype c = DObject).

(** [df.select_dtypes(include="number")] / [include=[np.number]] *)
Definition select_number (df : DataFrame) : list column :=
  List.filter is_number (df_columns df).

(** [df.select_dtypes(exclude="number")] *)
Definition select_not_number (df : DataFrame) : list column :=
  List.filter (λ c, negb (is_number c)) (df_columns df).

(** [df.select_dtypes(include=['object'])] *)
Definition select_object (df : DataFrame) : list column :=
  List.filter is_object (df_columns df).

(** A label stands for its column: labels of a loaded frame are
    distinct, so [df[col]] is the column the label came from. *)
Definition columns_tolist (cols : list column) : list string :=
  col_name <$> cols.

Definition isnull (x : cell) : bool :=
  match x with None => true | Some _ => false end.

(** One entry of [df.isnull().sum()]: the nulls of one column. *)
Definition null_count (c : column) : Z :=
  Z.of_nat (length (List.filter isnull (col_cells c))).

(** [df.isnull().sum()]: a Series indexed by column label. *)
Definition isnull_sum (df : DataFrame) : list (string * Z) :=
  (λ c, (col_name c, null_count c)) <$> df_columns df.

(** [Series.sum()] *)
Definition series_sum (s : list (string * Z)) : Z :=
  foldr (λ kv acc, kv.2 + acc) 0 s.

(** [Series.nunique()]: distinct values, missing cells left out. *)
Definition nunique (c : column) : Z :=
  Z.of_nat (length (remove_dups (omap id (col_cells c)))).

End Pandas.
Export Pandas.

(** ** The dataset profile (core/agent.py, step 2) *)

Record Profile (F : Type) := {
  total_rows : Z;
  total_columns : Z;
  numeric : list string;
  categorical : list string;
  missing_values_per_column : list (string * Z);
  completeness_score : pynum F
}.
Arguments total_rows {F} _.
Arguments total_columns {F} _.
Arguments numeric {F} _.
Arguments categorical {F} _.
Arguments missing_values_per_column {F} _.
Arguments completeness_score {F} _.

(** [int(df.isnull().sum().sum())] *)
Definition missing_cells (df : DataFrame) : Z :=
  series_sum (isnull_sum df).

(** Lines 44-50 of [run_analysis]. *)
Definition score_of_counts {F} `{PyFloatOps F} (total_cells missing : Z) : pynum F :=
  if 0 <? total_cells
  then PyFloat (py_round
                  (float_mul_int (int_sub_float 1 (int_truediv missing total_cells)) 100)
                  2)
  else PyInt 0.

(** Lines 41-65 of [run_analysis]: the profile of a loaded frame. *)
Definition profile_dataset {F} `{PyFloatOps F} (df : DataFrame) : Profile F :=
  let numeric_cols := columns_tolist (select_number df) in
  let categorical_cols := columns_tolist (select_not_number df) in
  let '(rows, cols) := shape df in
  let total_cells := rows * cols in
  let missing := missing_cells df in
  {| total_rows := rows;
     total_columns := cols;
     numeric := numeric_cols;
     categorical := categorical_cols;
     missing_values_per_column := isnull_sum df;
     completeness_score := score_of_counts total_cells missing |}.

(** The spec's wording: the sum of per-cell nullness over the whole
    dataset, every cell of every column taken once. *)
Definition nullness (x : cell) : Z := if isnull x then 1 else 0.

Definition spec_missing_cells (df : DataFrame) : Z :=
  foldr Z.add 0 (nullness <$> concat (col_cells <$> df_columns df)).

(** ** config.py

    The module is not among the sources; the settings the code reads are
    taken as a parameter. *)
Record Config := {
  MAX_CHARTS : Z;
  UPLOAD_FOLDER : string;
  LLM_PROVIDER : string;
  LLM_BASE_URL : string;
  LLM_MODEL : string;
  LLM_API_KEY : string;
  ALLOWED_EXTENSIONS : list string
}.

(** ** The chart selector (core/analyzer.py) *)

Module Analyzer.

Inductive chart_type := histogram | bar_chart | heatmap | boxplot.

#[global] Instance chart_type_eq_dec : EqDecision chart_type.
Proof. solve_decision. Defined.

Record ChartDescriptor := {
  type : chart_type;
  title : string;
  filename : string;
  filepath : string;
  description : string
}.

#[global] Instance ChartDescriptor_eq_dec : EqDecision ChartDescriptor.
Proof. solve_decision. Defined.

(** One call of a [_create_*] method. *)
Inductive render_req :=
  | RHistogram (col : column)
  | RBarChart (col : column)
  | RHeatmap (cols : list column)
  | RBoxplot (cols : list column).

#[global] Instance render_req_eq_dec : EqDecision render_req.
Proof. solve_decision. Defined.

(** matplotlib and seaborn: [true] when every statement of the [try]
    block before [self.charts.append] went through, [false] when one
    of them raised (the [except] branch only prints). *)
Definition renderer := render_req → bool.

Record DataAnalyzer := {
  df : DataFrame;
  session_id : string;
  charts : list ChartDescriptor;
  charts_dir : string
}.

Definition append_chart (self : DataAnalyzer) (d : ChartDescriptor) : DataAnalyzer :=
  {| df := df self; session_id := session_id self;
     charts := charts self ++ [d]; charts_dir := charts_dir self |}.

(** [DataAnalyzer.__init__] *)
Definition init (cfg : Config) (d : DataFrame) (sid : string) : DataAnalyzer :=
  {| df := d; session_id := sid; charts := [];
     charts_dir := path_join (path_join (UPLOAD_FOLDER cfg) "charts") sid |}.

Definition histogram_descriptor (dir : string) (col : column) : ChartDescriptor :=
  let fname := "hist_" +:+ replace_space (col_name col) +:+ ".png" in
  {| type := histogram;
     title := "Distribution of " +:+ col_name col;
     filename := fname;
     filepath := path_join dir fname;
     description := "Histogram showing the distribution of " +:+ col_name col +:+ " values" |}.

Definition bar_chart_descriptor (dir : string) (col : column) : ChartDescriptor :=
  let fname := "bar_" +:+ replace_space (col_name col) +:+ ".png" in
  {| type := bar_chart;
     title := "Top Categories in " +:+ col_name col;
     filename := fname;
     filepath := path_join dir fname;
     description := "Bar chart showing the frequency of categories in " +:+ col_name col |}.

Definition heatmap_descriptor (dir : string) : ChartDescriptor :=
  {| type := heatmap;
     title := "Correlation Heatmap";
     filename := "correlation_heatmap.png";
     filepath := path_join dir "correlation_heatmap.png";
     description := "Heatmap showing correlations between numeric variables" |}.

Definition boxplot_descriptor (dir : string) : ChartDescriptor :=
  {| type := boxplot;
     title := "Box Plot - Distribution Comparison";
     filename := "boxplot_comparison.png";
     filepath := path_join dir "boxplot_comparison.png";
     description := "Box plot comparing distributions of numeric variables" |}.

Definition _create_histogram (ok : renderer) (self : DataAnalyzer) (col : column)
  : DataAnalyzer :=
  if ok (RHistogram col)
  then append_chart self (histogram_descriptor (charts_dir self) col)
  else self.

Definition _create_bar_chart (ok : renderer) (self : DataAnalyzer) (col : column)
  : DataAnalyzer :=
  if ok (RBarChart col)
  then append_chart self (bar_chart_descriptor (charts_dir self) col)
  else self.

Definition _create_correlation_heatmap (ok : renderer) (self : DataAnalyzer)
    (numeric_cols : list column) : DataAnalyzer :=
  if ok (RHeatmap numeric_cols)
  then append_chart self (heatmap_descriptor (charts_dir self))
  else self.

Definition _create_boxplot (ok : renderer) (self : DataAnalyzer)
    (numeric_cols : list column) : DataAnalyzer :=
  if ok (RBoxplot numeric_cols)
  then append_chart self (boxplot_descriptor (charts_dir self))
  else self.

(** The object and the locals of [analyze]; [attempts] is a ghost log
    of the [_create_*] calls made, in order. *)
Record frame := {
  self : DataAnalyzer;
  chart_count : Z;
  attempts : list render_req
}.

(** [for col in numeric_cols[:3]: ...] *)
Fixpoint histogram_loop (cfg : Config) (ok : renderer) (cols : list column)
    (st : frame) : frame :=
  match cols with
  | [] => st
  | col :: rest =>
      if MAX_CHARTS cfg <=? chart_count st then st
      else histogram_loop cfg ok rest
             {| self := _create_histogram ok (self st) col;
                chart_count := chart_count st + 1;
                attempts := attempts st ++ [RHistogram col] |}
  end.

(** [for col in categorical_cols[:2]: ...] *)
Fixpoint bar_chart_loop (cfg : Config) (ok : renderer) (cols : list column)
    (st : frame) : frame :=
  match cols with
  | [] => st
  | col :: rest =>
      if MAX_CHARTS cfg <=? chart_count st then st
      else if nunique col <=? 15
      then bar_chart_loop cfg ok rest
             {| self := _create_bar_chart ok (self st) col;
                chart_count := chart_count st + 1;
                attempts := attempts st ++ [RBarChart col] |}
      else bar_chart_loop cfg ok rest st
  end.

Definition heatmap_step (cfg : Config) (ok : renderer) (numeric_cols : list column)
    (st : frame) : frame :=
  if (2 <=? Z.of_nat (length numeric_cols)) && (chart_count st <? MAX_CHARTS cfg)
  then {| self := _create_correlation_heatmap ok (self st) numeric_cols;
          chart_count := chart_count st + 1;
          attempts := attempts st ++ [RHeatmap numeric_cols] |}
  else st.

Definition boxplot_step (cfg : Config) (ok : renderer) (numeric_cols : list column)
    (st : frame) : frame :=
  if (1 <=? Z.of_nat (length numeric_cols)) && (chart_count st <? MAX_CHARTS cfg)
  then {| self := _create_boxplot ok (self st) (take 3 numeric_cols);
          chart_count := chart_count st + 1;
          attempts := attempts st ++ [RBoxplot (take 3 numeric_cols)] |}
  else st.

(** [DataAnalyzer.analyze], with its locals at the [return]. *)
Definition analyze_frame (cfg : Config) (ok : renderer) (obj : DataAnalyzer) : frame :=
  let numeric_cols := select_number (df obj) in
  let categorical_cols := select_object (df obj) in
  let st0 := {| self := obj; chart_count := 0; attempts := [] |} in
  let st1 := histogram_loop cfg ok (take 3 numeric_cols) st0 in
  let st2 := bar_chart_loop cfg ok (take 2 categorical_cols) st1 in
  let st3 := heatmap_step cfg ok numeric_cols st2 in
  boxplot_step cfg ok numeric_cols st3.

(** [analyze] returns [self.charts], the list the object keeps: the
    updated object and that list. *)
Definition analyze (cfg : Config) (ok : renderer) (obj : DataAnalyzer)
  : DataAnalyzer * list ChartDescriptor :=
  let st := analyze_frame cfg ok obj in
  (self st, charts (self st)).

(** *** What one run does, read off the code above *)

Definition descriptor_of (dir : string) (r : render_req) : ChartDescriptor :=
  match r with
  | RHistogram col => histogram_descriptor dir col
  | RBarChart col => bar_chart_descriptor dir col
  | RHeatmap _ => heatmap_descriptor dir
  | RBoxplot _ => boxplot_descriptor dir
  end.

(** The charts one run appends to [self.charts]. *)
Definition new_charts (cfg : Config) (ok : renderer) (obj : DataAnalyzer)
  : list ChartDescriptor :=
  drop (length (charts obj)) (analyze cfg ok obj).2.

(** The cardinality test of the bar-chart loop. *)
Definition eligible (col : column) : bool := nunique col <=? 15.

(** The columns whose histogram is attempted. *)
Definition histogram_cols (cfg : Config) (d : DataFrame) : list column :=
  take (Z.to_nat (MAX_CHARTS cfg)) (take 3 (select_number d)).

(** The columns whose bar chart is attempted. *)
Definition bar_chart_cols (cfg : Config) (d : DataFrame) : list column :=
  take (Z.to_nat (MAX_CHARTS cfg - Z.of_nat (length (histogram_cols cfg d))))
       (List.filter eligible (take 2 (select_object d))).

(** The heatmap request, when one is made: at least two numeric
    columns and budget left after the histograms and bar charts. *)
Definition heatmap_reqs (cfg : Config) (d : DataFrame) : list render_req :=
  let used := (length (histogram_cols cfg d) + length (bar_chart_cols cfg d))%nat in
  if (2 <=? Z.of_nat (length (select_number d))) && (Z.of_nat used <? MAX_CHARTS cfg)
  then [RHeatmap (select_number d)] else [].

(** The box-plot request, when one is made. *)
Definition boxplot_reqs (cfg : Config) (d : DataFrame) : list render_req :=
  let used := (length (histogram_cols cfg d) + length (bar_chart_cols cfg d)
               + length (heatmap_reqs cfg d))%nat in
  if (1 <=? Z.of_nat (length (select_number d))) && (Z.of_nat used <? MAX_CHARTS cfg)
  then [RBoxplot (take 3 (select_number d))] else [].

(** Each [_create_*] method appends the descriptor of its request when
    the render goes through and nothing otherwise. *)
Definition render (ok : renderer) (obj : DataAnalyzer) (r : render_req) : DataAnalyzer :=
  if ok r then append_chart obj (descriptor_of (charts_dir obj) r) else obj.

(** Invariant of a run: the object holds the charts it started with,
    then one descriptor per successful attempt, in order, and the
    counter is the number of attempts. *)
Definition frame_ok (ok : renderer) (obj : DataAnalyzer) (st : frame) : Prop :=
  charts (self st) =
    charts obj ++ (descriptor_of (charts_dir obj) <$> List.filter ok (attempts st))
  ∧ charts_dir (self st) = charts_dir obj
  ∧ df (self st) = df obj
  ∧ chart_count st = Z.of_nat (length (attempts st)).

(** Invariant of a run: the counter never passes the budget (it stays
    at 0 when the budget is negative). *)
Definition within_budget (cfg : Config) (st : frame) : Prop :=
  chart_count st ≤ Z.max 0 (MAX_CHARTS cfg).

End Analyzer.

(** ** The result store (core/storage.py) *)

Module Storage.

(** [CURRENT_TIMESTAMP], to the second.  SQLite stores it as the text
    [YYYY-MM-DD HH:MM:SS], whose order as text is the order of the
    instants. *)
Definition timestamp := nat.

(** A row of [sessions]. *)
Record session_row := {
  sid : nat;
  filename : string;
  filepath : string;
  uploaded_at : timestamp;
  status : string
}.

(** A row of [analysis_results]. *)
Record result_row := {
  id : nat;
  session_id : string;
  result_type : string;
  result_data : string;
  created_at : timestamp
}.

#[global] Instance result_row_eq_dec : EqDecision result_row.
Proof. solve_decision. Defined.

(** The database file.  [sessions] is keyed by its [UNIQUE] column
    [session_id]; [analysis_results] keeps its rows in rowid order.
    The [*_seq] fields are the AUTOINCREMENT counters. *)
Record db := {
  sessions : gmap string session_row;
  sessions_seq : nat;
  analysis_results : list result_row;
  results_seq : nat
}.

(** [_init_database] on a fresh file. *)
Definition empty_db : db :=
  {| sessions := ∅; sessions_seq := 0; analysis_results := []; results_seq := 0 |}.

(** [allowed_file] *)
Definition allowed_file (cfg : Config) (name : string) : bool :=
  match after_last_dot name with
  | Some ext => bool_decide (lower ext ∈ ALLOWED_EXTENSIONS cfg)
  | None => false
  end.

(** The [INSERT INTO sessions] of [save_upload]; a second row with the
    same [session_id] violates the [UNIQUE] constraint. *)
Definition insert_session (d : db) (now : timestamp) (session : string)
    (name path : string) : py_result db :=
  match sessions d !! session with
  | Some _ => Raise SqliteError
  | None =>
      Ret {| sessions :=
               <[session := {| sid := S (sessions_seq d); filename := name;
                               filepath := path; uploaded_at := now;
                               status := "uploaded" |}]> (sessions d);
             sessions_seq := S (sessions_seq d);
             analysis_results := analysis_results d;
             results_seq := results_seq d |}
  end.

(** [save_upload]: [file] is the uploaded file's name ([None] for a
    missing file object), [secure_filename] is werkzeug's, [stamp] is
    [datetime.now().strftime('%Y%m%d_%H%M%S')]. *)
Definition save_upload (cfg : Config) (secure_filename : string → string)
    (d : db) (now : timestamp) (stamp : string) (file : option string)
    (session : string) : py_result (db * option (string * string)) :=
  match file with
  | Some name =>
      if allowed_file cfg name then
        let fname := secure_filename name in
        let unique_filename := session +:+ "_" +:+ stamp +:+ "_" +:+ fname in
        let path := path_join (UPLOAD_FOLDER cfg) unique_filename in
        d' ← insert_session d now session fname path;
        mret (d', Some (path, fname))
      else mret (d, None)
  | None => mret (d, None)
  end.

(** [get_session] *)
Definition get_session (d : db) (session : string) : option session_row :=
  sessions d !! session.

Definition set_status (st : string) (r : session_row) : session_row :=
  {| sid := sid r; filename := filename r; filepath := filepath r;
     uploaded_at := uploaded_at r; status := st |}.

(** [update_session_status]: [UPDATE sessions SET status = ? WHERE
    session_id = ?]; no row, no change. *)
Definition update_session_status (d : db) (session st : string) : db :=
  {| sessions := alter (set_status st) session (sessions d);
     sessions_seq := sessions_seq d;
     analysis_results := analysis_results d;
     results_seq := results_seq d |}.

(** The row [save_analysis_result] inserts.  The statement names
    [session_id], [result_type] and [result_data]; [id] and
    [created_at] are filled in by SQLite, from the AUTOINCREMENT counter
    and [CURRENT_TIMESTAMP] of the schema.  No statement of the code
    reads [id]. *)
Definition new_result_row (d : db) (now : timestamp)
    (session ty data : string) : result_row :=
  {| id := S (results_seq d); session_id := session; result_type := ty;
     result_data := data; created_at := now |}.

(** [save_analysis_result]: one [INSERT INTO analysis_results].  The
    foreign key is not enforced (SQLite's default), so any
    [session_id] is accepted. *)
Definition save_analysis_result (d : db) (now : timestamp)
    (session ty data : string) : db :=
  {| sessions := sessions d;
     sessions_seq := sessions_seq d;
     analysis_results := analysis_results d ++ [new_result_row d now session ty data];
     results_seq := S (results_seq d) |}.

(** [WHERE session_id = ? AND result_type = ?] *)
Definition has_key (session ty : string) (r : result_row) : bool :=
  String.eqb (session_id r) session && String.eqb (result_type r) ty.

(** How SQLite orders two rows of equal [created_at], which SQL leaves
    open: [tie best r] says whether row [r] comes before the row
    [best] met earlier in the scan. *)
Definition tie_break := result_row → result_row → bool.

(** [ORDER BY created_at DESC LIMIT 1] over rows scanned in rowid
    order: does [r] come before the best row so far? *)
Definition better (tie : tie_break) (best r : result_row) : bool :=
  Nat.ltb (created_at best) (created_at r)
  || (Nat.eqb (created_at best) (created_at r) && tie best r).

Fixpoint order_by_created_at_desc_limit_1 (tie : tie_break)
    (best : option result_row) (rows : list result_row) : option result_row :=
  match rows with
  | [] => best
  | r :: rest =>
      order_by_created_at_desc_limit_1 tie
        (match best with
         | None => Some r
         | Some b => if better tie b r then Some r else Some b
         end) rest
  end.

(** [cursor.fetchone()] of the query of [get_analysis_result] *)
Definition fetch_latest (tie : tie_break) (d : db) (session ty : string)
  : option result_row :=
  order_by_created_at_desc_limit_1 tie None
    (List.filter (has_key session ty) (analysis_results d)).

(** [get_analysis_result]: [result[0] if result else None] *)
Definition get_analysis_result (tie : tie_break) (d : db) (session ty : string)
  : option string :=
  result_data <$> fetch_latest tie d session ty.

(** The pandas readers: [pd.read_csv] and [pd.read_excel] on a path. *)
Record readers := {
  read_csv : string → py_result DataFrame;
  read_excel : string → py_result DataFrame
}.

(** [load_dataframe]; [Ret None] is Python's [None]. *)
Definition load_dataframe (pd : readers) (path : string)
  : py_result (option DataFrame) :=
  try_except
    (file_ext ← lower <$> rsplit_dot_1 path;
     if String.eqb file_ext "csv" then Some <$> read_csv pd path
     else if bool_decide (file_ext ∈ ["xlsx"; "xls"]) then Some <$> read_excel pd path
     else mret None)
    (λ e, mret None).

(** *** Calls on the store, for runs of several operations *)

Inductive op :=
  | SaveUpload (now : timestamp) (session name path : string)
  | GetSession (session : string)
  | UpdateSessionStatus (session st : string)
  | SaveAnalysisResult (now : timestamp) (session ty data : string)
  | GetAnalysisResult (session ty : string).

(** The database after one call; a call that raises leaves it as it
    was, and the reads do not touch it. *)
Definition exec (d : db) (o : op) : db :=
  match o with
  | SaveUpload now session name path =>
      match insert_session d now session name path with
      | Ret d' => d'
      | Raise _ => d
      end
  | GetSession _ => d
  | UpdateSessionStatus session st => update_session_status d session st
  | SaveAnalysisResult now session ty data =>
      save_analysis_result d now session ty data
  | GetAnalysisResult _ _ => d
  end.

Definition is_save (o : op) : bool :=
  match o with SaveAnalysisResult _ _ _ _ => true | _ => false end.

(** *** The words of the load contract *)

(** The extension [load_dataframe] dispatches on. *)
Definition file_ext (path : string) : option string :=
  lower <$> after_last_dot path.

Definition supported (path : string) : bool :=
  match file_ext path with
  | Some ext => bool_decide (ext ∈ ["csv"; "xlsx"; "xls"])
  | None => false
  end.

(** What the reader for the path's extension answers. *)
Definition read (pd : readers) (path : string) : py_result DataFrame :=
  if bool_decide (file_ext path = Some "csv") then read_csv pd path
  else read_excel pd path.

(** The file cannot be read: the reader raises. *)
Definition unreadable (pd : readers) (path : string) : Prop :=
  ∃ e, read pd path = Raise e.

(** The file is empty: it holds nothing to parse, which the reader
    reports by raising pandas' [EmptyDataError]. *)
Definition file_is_empty (pd : readers) (path : string) : Prop :=
  read pd path = Raise EmptyDataError.

End Storage.

(** ** The insight client (core/llm_client.py) *)

Module LLM.

(** The call [requests.post(url, headers=..., json=..., timeout=...)]. *)
Record http_request := {
  url : string;
  headers : list (string * string);
  payload : json;
  timeout : Z
}.

(** The response object: [status_code], [text], and what [json()]
    gives (it raises when the body is not JSON). *)
Record http_response := {
  status_code : Z;
  text : string;
  json_body : py_result json
}.

(** The network: [requests.post] returns a response or raises
    (timeout, connection error). *)
Definition transport := http_request → py_result http_response.

Record LLMClient := {
  provider : string;
  base_url : string;
  model : string;
  api_key : string;
  available : bool
}.

(** [LLMClient.__init__] *)
Definition init (cfg : Config) : LLMClient :=
  {| provider := LLM_PROVIDER cfg; base_url := LLM_BASE_URL cfg;
     model := LLM_MODEL cfg; api_key := LLM_API_KEY cfg; available := true |}.

Definition system_message : string :=
  "You are a professional data analyst. " +:+
  "Provide clear, accurate insights based only on the data provided. " +:+
  "Never hallucinate or make up information.".

Definition ollama_request (self : LLMClient) (prompt : string) : http_request :=
  {| url := base_url self;
     headers := [];
     payload := JObj [("model", JStr (model self)); ("prompt", JStr prompt);
                      ("stream", JBool false)];
     timeout := 180 |}.

Definition chat_request (self : LLMClient) (prompt : string)
    (max_tokens : Z) (temperature : Q) : http_request :=
  {| url := base_url self +:+ "/chat/completions";
     headers := [("Content-Type", "application/json");
                 ("Authorization", "Bearer " +:+ api_key self)];
     payload :=
       JObj [("model", JStr (model self));
             ("messages",
              JArr [JObj [("role", JStr "system"); ("content", JStr system_message)];
                    JObj [("role", JStr "user"); ("content", JStr prompt)]]);
             ("max_tokens", JNum (inject_Z max_tokens));
             ("temperature", JNum temperature)];
     timeout := 60 |}.

(** The request [_make_request] sends. *)
Definition request_of (self : LLMClient) (prompt : string)
    (max_tokens : Z) (temperature : Q) : http_request :=
  if String.eqb (provider self) "ollama" then ollama_request self prompt
  else chat_request self prompt max_tokens temperature.

(** The body of the [try] of [_make_request]; [JNull] is [None]. *)
Definition _make_request_try (self : LLMClient) (post : transport)
    (prompt : string) (max_tokens : Z) (temperature : Q) : py_result json :=
  if String.eqb (provider self) "ollama" then
    response ← post (ollama_request self prompt);
    if status_code response =? 200 then
      body ← json_body response;
      answer ← py_get body "response" (JStr "");
      py_strip answer
    else mret JNull
  else
    response ← post (chat_request self prompt max_tokens temperature);
    if status_code response =? 200 then
      result ← json_body response;
      choices ← py_item result "choices";
      choice ← py_item_0 choices;
      message ← py_item choice "message";
      py_item message "content"
    else mret JNull.

(** [_make_request] *)
Definition _make_request (self : LLMClient) (post : transport)
    (prompt : string) (max_tokens : Z) (temperature : Q) : py_result json :=
  try_except (_make_request_try self post prompt max_tokens temperature)
             (λ e, mret JNull).

Definition _fallback_insights : string :=
"
**Insights (Basic Analysis):**

The LLM service is currently unavailable. Here are basic observations:

1. The dataset has been successfully loaded and cleaned
2. Statistical analysis has been performed on all numeric columns
3. Visualizations have been generated for key variables
4. Please review the charts and statistics for detailed information
".

Definition dquote : string := String (ascii_of_nat 34) EmptyString.

(** The prompt of [generate_insights]. *)
Definition insights_prompt (context data_summary : string) : string :=
"
STRICT RULES:
- Use only the provided dataset information
- Do not invent numbers or facts
- If information is missing, say " +:+ dquote +:+ "Not enough data" +:+ dquote +:+ "
- Keep responses concise

You are analyzing a dataset. Based on the following information, provide clear insights.

DATASET CONTEXT:
" +:+ context +:+ "

DATA SUMMARY:
" +:+ data_summary +:+ "

Please provide:
1. Key observations (3-5 points)
2. Interesting patterns or trends
3. Potential data quality issues
4. Suggestions for further analysis

Keep your response clear, concise, and based ONLY on the provided data.
Do not make assumptions beyond what the data shows.
".

(** [generate_insights] *)
Definition generate_insights (self : LLMClient) (post : transport)
    (context data_summary : string) : py_result json :=
  if negb (available self) then mret (JStr _fallback_insights)
  else
    let prompt := insights_prompt context data_summary in
    response ← _make_request self post prompt 800 (Qmake 7 10);
    if truthy response then mret response else mret (JStr _fallback_insights).

(** The endpoint call fails: the transport raises (timeout, connection
    error) or the status is not 200. *)
Definition endpoint_fails (post : transport) (req : http_request) : Prop :=
  (∃ e, post req = Raise e)
  ∨ (∃ response, post req = Ret response ∧ status_code response ≠ 200).

Definition is_text (v : json) : Prop := ∃ s, v = JStr s.

End LLM.

(** ** The orchestrator (core/agent.py) *)

Module Agent.

Record Agent := {
  session_id : string;
  llm : LLM.LLMClient;
  filename : string;
  filepath : string
}.

(** [Agent.__init__]: [session_info["filename"]] raises [TypeError]
    when [get_session] found no row. *)
Definition init (cfg : Config) (d : Storage.db) (session : string) : py_result Agent :=
  match Storage.get_session d session with
  | Some info =>
      Ret {| session_id := session; llm := LLM.init cfg;
             filename := Storage.filename info;
             filepath := Storage.filepath info |}
  | None => Raise TypeError
  end.

(** What a run does to the outside, in order. *)
Inductive event :=
  | DatasetLoaded (path : string)
  | InsightsRequested
  | ReportComposed
  | ResultSaved (ty : string)
  | StatusWritten (st : string).

#[global] Instance event_eq_dec : EqDecision event.
Proof. solve_decision. Defined.

(** The database and the history of the run so far. *)
Record world := {
  database : Storage.db;
  history : list event
}.

(** The collaborators of a run.  [report_generator] stands for
    [core/report_generator.py], which is not among the sources: the
    constructor, the five [add_*] calls and [get_report] taken
    together, returning the report or raising.  [sqlite_commits k]
    says whether a statement issued after [k] events commits (it
    raises otherwise, leaving the database as it was);
    [current_timestamp k] is SQLite's clock then. *)
Record env (F : Type) := {
  pandas : Storage.readers;
  network : LLM.transport;
  json_dumps_profile : option Z → Profile F → py_result string;
  report_generator :
    string → string → Profile F → list Analyzer.ChartDescriptor → json → json
    → py_result json;
  json_dumps_report : json → py_result string;
  repr : json → string;
  sqlite_commits : nat → bool;
  current_timestamp : nat → Storage.timestamp
}.
Arguments pandas {F} _.
Arguments network {F} _.
Arguments json_dumps_profile {F} _.
Arguments report_generator {F} _.
Arguments json_dumps_report {F} _.
Arguments repr {F} _.
Arguments sqlite_commits {F} _.
Arguments current_timestamp {F} _.

(** A step of the run: it returns or raises, and leaves a world. *)
Definition M (A : Type) : Type := world → py_result A * world.

#[global] Instance M_ret : MRet M := λ A a w, (Ret a, w).
#[global] Instance M_bind : MBind M := λ A B k m w,
  match m w with
  | (Ret a, w') => k a w'
  | (Raise e, w') => (Raise e, w')
  end.

Definition raise {A} (e : exn) : M A := λ w, (Raise e, w).

Definition lift {A} (r : py_result A) : M A := λ w, (r, w).

Definition record (ev : event) : M unit :=
  λ w, (Ret tt, {| database := database w; history := history w ++ [ev] |}).

(** [try: body / except Exception: handler]; what the body did to the
    world before it raised stays done. *)
Definition try_catch {A} (body : M A) (handler : exn → M A) : M A :=
  λ w, match body w with
       | (Ret a, w') => (Ret a, w')
       | (Raise e, w') => handler e w'
       end.

(** A statement on the database followed by [commit]. *)
Definition execute {F} (e : env F) (ev : event)
    (stmt : Storage.timestamp → Storage.db → Storage.db) : M unit :=
  λ w, let k := length (history w) in
       if sqlite_commits e k
       then (Ret tt, {| database := stmt (current_timestamp e k) (database w);
                        history := history w ++ [ev] |})
       else (Raise SqliteError, w).

(** [str(result_data)] *)
Definition py_str {F} (e : env F) (v : json) : string :=
  match v with
  | JStr s => s
  | _ => repr e v
  end.

Definition save_analysis_result {F} (e : env F) (session ty data : string) : M unit :=
  execute e (ResultSaved ty)
    (λ now d, Storage.save_analysis_result d now session ty data).

Definition update_session_status {F} (e : env F) (session st : string) : M unit :=
  execute e (StatusWritten st)
    (λ _ d, Storage.update_session_status d session st).

(** The [try] block of [run_analysis]. *)
Definition run_analysis_try {F} `{PyFloatOps F} (e : env F) (self : Agent) : M bool :=
  (* step 1 *)
  loaded ← (record (DatasetLoaded (filepath self));;
            lift (Storage.load_dataframe (pandas e) (filepath self)));
  df ← match loaded with
       | None => raise ValueError
       | Some d => if empty d then raise ValueError else mret d
       end;
  (* step 2 *)
  let profile := profile_dataset df in
  (* step 3 *)
  let charts : list Analyzer.ChartDescriptor := [] in
  (* step 4 *)
  let context := "Dataset name: " +:+ filename self in
  data_summary ← lift (json_dumps_profile e (Some 2) profile);
  insights ← (record InsightsRequested;;
              lift (LLM.generate_insights (llm self) (network e) context data_summary));
  (* step 5 *)
  report ← (record ReportComposed;;
            lift (report_generator e (session_id self) (filename self)
                    profile charts insights insights));
  (* step 6 *)
  profile_json ← lift (json_dumps_profile e None profile);
  save_analysis_result e (session_id self) "profile" profile_json;;
  save_analysis_result e (session_id self) "charts" "[]";;
  save_analysis_result e (session_id self) "insights" (py_str e insights);;
  report_json ← lift (json_dumps_report e report);
  save_analysis_result e (session_id self) "report" report_json;;
  (* step 7 *)
  update_session_status e (session_id self) "completed";;
  mret true.

(** [run_analysis] *)
Definition run_analysis {F} `{PyFloatOps F} (e : env F) (self : Agent) : M bool :=
  try_catch (run_analysis_try e self) (λ _, mret false).

(** The events a run added to the history. *)
Definition events_of_run (before after : world) : list event :=
  drop (length (history before)) (history after).

(** The events of a run that goes through. *)
Definition complete_run (self : Agent) : list event :=
  [DatasetLoaded (filepath self); InsightsRequested; ReportComposed;
   ResultSaved "profile"; ResultSaved "charts"; ResultSaved "insights";
   ResultSaved "report"; StatusWritten "completed"].

(** The statuses written by a list of events, in order. *)
Definition status_writes (evs : list event) : list string :=
  omap (λ ev, match ev with StatusWritten st => Some st | _ => None end) evs.

(** The result types saved by a list of events, in order. *)
Definition saved_types (evs : list event) : list string :=
  omap (λ ev, match ev with ResultSaved ty => Some ty | _ => None end) evs.

End Agent.

(** ** Sample data *)

Module Samples.
Import Analyzer.

Definition num_col (name : string) (xs : list Z) : column :=
  {| col_name := name; col_dtype := DNumber; col_cells := (λ x, Some (VNum x)) <$> xs |}.

Definition text_col (name : string) (xs : list string) : column :=
  {| col_name := name; col_dtype := DObject; col_cells := (λ x, Some (VStr x)) <$> xs |}.

(** A column of booleans: pandas gives it dtype [bool], which is
    neither a number nor [object]. *)
Definition flag_col : column :=
  {| col_name := "flag"; col_dtype := DOther;
     col_cells := [Some (VBool true); Some (VBool false); Some (VBool true)] |}.

Definition cfg_of (budget : Z) : Config :=
  {| MAX_CHARTS := budget; UPLOAD_FOLDER := "uploads";
     LLM_PROVIDER := "ollama"; LLM_BASE_URL := "http://localhost:11434/api/generate";
     LLM_MODEL := "llama3"; LLM_API_KEY := "";
     ALLOWED_EXTENSIONS := ["csv"; "xlsx"; "xls"] |}.

Definition all_ok : renderer := λ _, true.

(** Four numeric columns and one text column with three values. *)
Definition sales : DataFrame :=
  {| df_index := 3;
     df_columns := [ num_col "units" [1; 2; 3]; num_col "price" [10; 20; 30];
                     text_col "region" ["north"; "south"; "east"];
                     num_col "cost" [5; 6; 7]; num_col "tax" [1; 1; 2] ] |}.

(** Three text columns, the first with 16 distinct values. *)
Definition contacts : DataFrame :=
  {| df_index := 16;
     df_columns :=
       [ text_col "name" ["a"; "b"; "c"; "d"; "e"; "f"; "g"; "h";
                          "i"; "j"; "k"; "l"; "m"; "n"; "o"; "p"];
         text_col "plan" ["free"; "pro"; "free"; "pro"; "free"; "pro"; "free"; "pro";
                          "free"; "pro"; "free"; "pro"; "free"; "pro"; "free"; "pro"];
         text_col "tier" ["x"; "y"; "x"; "y"; "x"; "y"; "x"; "y";
                          "x"; "y"; "x"; "y"; "x"; "y"; "x"; "y"] ] |}.

(** One boolean column only. *)
Definition flags : DataFrame := {| df_index := 3; df_columns := [flag_col] |}.

(** Three numeric columns. *)
Definition readings : DataFrame :=
  {| df_index := 3;
     df_columns := [ num_col "x" [1; 2; 3]; num_col "y" [4; 5; 6]; num_col "z" [7; 8; 9] ] |}.

(** A renderer whose histogram of the first column of [readings] fails. *)
Definition x_fails : renderer :=
  λ r, bool_decide (r ≠ RHistogram (num_col "x" [1; 2; 3])).

(** What pandas reads from a CSV file that holds a header line and no
    data line: the columns, of object dtype, and no rows. *)
Definition header_only : DataFrame :=
  {| df_index := 0; df_columns := [text_col "units" []; text_col "region" []] |}.

Definition header_only_files : Storage.readers :=
  {| Storage.read_csv := λ _, Ret header_only;
     Storage.read_excel := λ _, Raise OSError |}.

Definition hosted_client : LLM.LLMClient :=
  {| LLM.provider := "openai"; LLM.base_url := "https://api.example.com/v1";
     LLM.model := "gpt"; LLM.api_key := "k"; LLM.available := true |}.

(** An endpoint nobody answers at. *)
Definition unreachable : LLM.transport := λ _, Raise RequestException.

(** A chat endpoint that answers 200 with the message content as a
    list of content parts instead of a string. *)
Definition content_parts : json :=
  JArr [JObj [("type", JStr "text"); ("text", JStr "Sales rose in March.")]].

Definition parts_endpoint : LLM.transport :=
  λ _, Ret {| LLM.status_code := 200; LLM.text := "";
              LLM.json_body :=
                Ret (JObj [("choices",
                            JArr [JObj [("message",
                                         JObj [("role", JStr "assistant");
                                               ("content", content_parts)])]])]) |}.

(** Round to the nearest integer, a tie to the even one. *)
Definition round_half_even (y : Q) : Z :=
  let f := Qfloor y in
  match Qcompare (y - inject_Z f) (Qmake 1 2) with
  | Lt => f
  | Gt => f + 1
  | Eq => if Z.even f then f else f + 1
  end.

(** Exact rationals standing in for binary64, to run examples;
    rounding is to the nearest, a tie to the even digit. *)
#[export] Instance rational_ops : PyFloatOps Q := {|
  int_truediv a b := Qmake a (Z.to_pos b);
  int_sub_float a x := Qred (inject_Z a - x);
  float_mul_int x a := Qred (x * inject_Z a);
  py_round x n := Qmake (round_half_even (x * inject_Z (10 ^ n)))
                        (Z.to_pos (10 ^ n))
|}.

(** Two columns, five rows, one answer missing. *)
Definition survey : DataFrame :=
  {| df_index := 5;
     df_columns :=
       [ {| col_name := "age"; col_dtype := DNumber;
            col_cells := [Some (VNum 31); None; Some (VNum 45); Some (VNum 28);
                          Some (VNum 52)] |};
         text_col "city" ["Pune"; "Delhi"; "Pune"; "Goa"; "Delhi"] ] |}.

Definition agent_s1 : Agent.Agent :=
  {| Agent.session_id := "s1"; Agent.llm := hosted_client;
     Agent.filename := "data.csv"; Agent.filepath := "uploads/s1_data.csv" |}.

(** A world in which the uploaded file holds a header line only. *)
Definition header_only_env : Agent.env Q :=
  {| Agent.pandas := header_only_files;
     Agent.network := unreachable;
     Agent.json_dumps_profile := λ _ _, Ret "{}";
     Agent.report_generator := λ _ _ _ _ _ _, Ret (JObj []);
     Agent.json_dumps_report := λ _, Ret "{}";
     Agent.repr := λ _, "";
     Agent.sqlite_commits := λ _, true;
     Agent.current_timestamp := λ k, k |}.

Definition uploaded_s1 : Agent.world :=
  {| Agent.database :=
       {| Storage.sessions :=
            {[ "s1" := {| Storage.sid := 1; Storage.filename := "data.csv";
                          Storage.filepath := "uploads/s1_data.csv";
                          Storage.uploaded_at := 0%nat;
                          Storage.status := "uploaded" |} ]};
          Storage.sessions_seq := 1;
          Storage.analysis_results := [];
          Storage.results_seq := 0 |};
     Agent.history := [] |}.

End Samples.

(** ** The insight client, its other operations (core/llm_client.py) *)

Module LLMOps.
Import LLM.

(** [_check_availability]; [response is not None]. *)
Definition _check_availability (self : LLMClient) (post : transport) : py_result bool :=
  try_except
    (response ← _make_request self post "Hello" 10 (Qmake 7 10);
     mret (match response with JNull => false | _ => true end))
    (λ e, mret false).

Definition _fallback_summary : string :=
"
This report presents an analysis of the uploaded dataset. The data has been processed,
cleaned, and analyzed to extract key statistics and patterns.
".

Definition _fallback_recommendations : string :=
"
1. Review the statistical summaries for each variable
2. Examine the visualizations to identify patterns
3. Check for any data quality issues
4. Consider domain-specific analysis
5. Use insights to guide decisions
".

Definition summary_prompt (analysis_results : string) : string :=
"
You are creating an executive summary for a data analysis report.

ANALYSIS RESULTS:
" +:+ analysis_results +:+ "

Write a concise executive summary (3-4 paragraphs) that:
1. Describes what the dataset contains
2. Highlights the most important findings
3. Provides actionable insights

Use clear, professional language. Base everything on the provided data.
".

Definition recommendations_prompt (analysis_results : string) : string :=
"
Based on the following data analysis, provide 3-5 actionable recommendations.

ANALYSIS RESULTS:
" +:+ analysis_results +:+ "

Each recommendation should:
- Be specific and actionable
- Be based on the data provided
- Focus on insights or improvements

Format as a numbered list.
".

Definition chart_prompt (chart_description data_context : string) : string :=
"
Explain this chart in simple, plain English (2-3 sentences).

CHART DESCRIPTION:
" +:+ chart_description +:+ "

DATA CONTEXT:
" +:+ data_context +:+ "

Focus on what the chart reveals about the data.
".

(** [generate_executive_summary] *)
Definition generate_executive_summary (self : LLMClient) (post : transport)
    (analysis_results : string) : py_result json :=
  if negb (available self) then mret (JStr _fallback_summary)
  else
    let prompt := summary_prompt analysis_results in
    response ← _make_request self post prompt 600 (Qmake 7 10);
    if truthy response then mret response else mret (JStr _fallback_summary).

(** [generate_recommendations] *)
Definition generate_recommendations (self : LLMClient) (post : transport)
    (analysis_results : string) : py_result json :=
  if negb (available self) then mret (JStr _fallback_recommendations)
  else
    let prompt := recommendations_prompt analysis_results in
    response ← _make_request self post prompt 500 (Qmake 7 10);
    if truthy response then mret response else mret (JStr _fallback_recommendations).

(** [explain_chart] *)
Definition explain_chart (self : LLMClient) (post : transport)
    (chart_description data_context : string) : py_result json :=
  if negb (available self) then mret (JStr ("This chart shows: " +:+ chart_description))
  else
    let prompt := chart_prompt chart_description data_context in
    response ← _make_request self post prompt 200 (Qmake 7 10);
    if truthy response then mret response
    else mret (JStr ("This chart shows: " +:+ chart_description)).

(** The reply of a chat endpoint: [result['choices'][0]['message']['content']]. *)
Definition chat_content (body : json) : py_result json :=
  choices ← py_item body "choices";
  choice ← py_item_0 choices;
  message ← py_item choice "message";
  py_item message "content".

End LLMOps.

(** ** Vocabulary for the properties of the chart selector and the store *)

(** Does the character occur in the text? *)
Fixpoint contains (c : ascii) (s : string) : bool :=
  match s with
  | EmptyString => false
  | String x rest => Ascii.eqb x c || contains c rest
  end.

(** Is every character of the text whitespace? *)
Fixpoint all_space_from (fuel : nat) (l : list ascii) : bool :=
  match l with
  | [] => true
  | _ =>
      match fuel with
      | O => false
      | S fuel' =>
          match drop_space l with
          | Some rest => all_space_from fuel' rest
          | None => false
          end
      end
  end.

Definition all_space (s : string) : bool :=
  let l := list_ascii_of_string s in all_space_from (length l) l.

(** The chart type a render request is for. *)
Definition kind (r : Analyzer.render_req) : Analyzer.chart_type :=
  match r with
  | Analyzer.RHistogram _ => Analyzer.histogram
  | Analyzer.RBarChart _ => Analyzer.bar_chart
  | Analyzer.RHeatmap _ => Analyzer.heatmap
  | Analyzer.RBoxplot _ => Analyzer.boxplot
  end.

(** The budget slots used before the heatmap is considered. *)
Definition used_before_heatmap (cfg : Config) (d : DataFrame) : Z :=
  Z.of_nat (length (Analyzer.histogram_cols cfg d))
  + Z.of_nat (length (Analyzer.bar_chart_cols cfg d)).

(** No stored row of the key is as late as [now]. *)
Definition later_than_stored (d : Storage.db) (session ty : string)
    (now : Storage.timestamp) : Prop :=
  ∀ r, r ∈ Storage.analysis_results d →
       Storage.session_id r = session → Storage.result_type r = ty →
       (Storage.created_at r < now)%nat.

(** An operation of the insight client answers with a non-empty value,
    and with its fallback text when the client is marked unavailable or
    the endpoint call made for the request fails. *)
Definition falls_back (result : py_result json) (self : LLM.LLMClient)
    (post : LLM.transport) (req : LLM.http_request) (fallback : string) : Prop :=
  ∃ v, result = Ret v
       ∧ truthy v = true
       ∧ (LLM.available self = false ∨ LLM.endpoint_fails post req →
          v = JStr fallback).

(** What a stored row says, its id left out. *)
Definition row_content (r : Storage.result_row)
  : string * string * string * Storage.timestamp :=
  (Storage.session_id r, Storage.result_type r, Storage.result_data r,
   Storage.created_at r).

(** The collaborators of a run all go through: the dataset loads and is
    not empty, the profile and the report serialise, the composer
    returns a report for the insights obtained, and the five database
    statements commit. *)
Record run_goes_through {F} `{PyFloatOps F} (e : Agent.env F) (self : Agent.Agent)
    (w : Agent.world) (d : DataFrame) (data_summary profile_json : string)
    (insights report : json) (report_json : string) : Prop := {
  loads : Storage.load_dataframe (Agent.pandas e) (Agent.filepath self) = Ret (Some d);
  not_empty : empty d = false;
  summary_dumps :
    Agent.json_dumps_profile e (Some 2) (profile_dataset d) = Ret data_summary;
  insights_come :
    LLM.generate_insights (Agent.llm self) (Agent.network e)
      ("Dataset name: " +:+ Agent.filename self) data_summary = Ret insights;
  report_composes :
    Agent.report_generator e (Agent.session_id self) (Agent.filename self)
      (profile_dataset d) [] insights insights = Ret report;
  profile_dumps :
    Agent.json_dumps_profile e None (profile_dataset d) = Ret profile_json;
  report_dumps : Agent.json_dumps_report e report = Ret report_json;
  commits :
    ∀ k, (length (Agent.history w) + 3 ≤ k ≤ length (Agent.history w) + 7)%nat →
         Agent.sqlite_commits e k = true
}.

(** The database a run that goes through leaves. *)
Definition database_after_run {F} (e : Agent.env F) (self : Agent.Agent)
    (w : Agent.world) (profile_json : string) (insights : json)
    (report_json : string) : Storage.db :=
  let n := length (Agent.history w) in
  let session := Agent.session_id self in
  let d1 := Storage.save_analysis_result (Agent.database w)
              (Agent.current_timestamp e (n + 3)) session "profile" profile_json in
  let d2 := Storage.save_analysis_result d1
              (Agent.current_timestamp e (n + 4)) session "charts" "[]" in
  let d3 := Storage.save_analysis_result d2
              (Agent.current_timestamp e (n + 5)) session "insights"
              (Agent.py_str e insights) in
  let d4 := Storage.save_analysis_result d3
              (Agent.current_timestamp e (n + 6)) session "report" report_json in
  Storage.update_session_status d4 session "completed".

(** A step of the run fails.  The steps are those of [run_analysis] in
    order: the load (it yields no dataset, or an empty one, which the
    run turns into a [ValueError]), [json.dumps] of the profile for the
    prompt, the insight request, the report composer, [json.dumps] of
    the profile and of the report for the store, and the five database
    statements (four saves and the status update), issued after 3 to 7
    events of the run. *)
Inductive step_fails {F} `{PyFloatOps F} (e : Agent.env F) (self : Agent.Agent)
    (w : Agent.world) : Prop :=
  | load_fails :
      (∀ d, Storage.load_dataframe (Agent.pandas e) (Agent.filepath self)
            ≠ Ret (Some d)) →
      step_fails e self w
  | dataset_is_empty (d : DataFrame) :
      Storage.load_dataframe (Agent.pandas e) (Agent.filepath self) = Ret (Some d) →
      empty d = true →
      step_fails e self w
  | summary_dump_fails (d : DataFrame) (ex : exn) :
      Storage.load_dataframe (Agent.pandas e) (Agent.filepath self) = Ret (Some d) →
      Agent.json_dumps_profile e (Some 2) (profile_dataset d) = Raise ex →
      step_fails e self w
  | insights_fail (d : DataFrame) (data_summary : string) (ex : exn) :
      Storage.load_dataframe (Agent.pandas e) (Agent.filepath self) = Ret (Some d) →
      Agent.json_dumps_profile e (Some 2) (profile_dataset d) = Ret data_summary →
      LLM.generate_insights (Agent.llm self) (Agent.network e)
        ("Dataset name: " +:+ Agent.filename self) data_summary = Raise ex →
      step_fails e self w
  | composer_fails (d : DataFrame) (data_summary : string) (insights : json)
      (ex : exn) :
      Storage.load_dataframe (Agent.pandas e) (Agent.filepath self) = Ret (Some d) →
      Agent.json_dumps_profile e (Some 2) (profile_dataset d) = Ret data_summary →
      LLM.generate_insights (Agent.llm self) (Agent.network e)
        ("Dataset name: " +:+ Agent.filename self) data_summary = Ret insights →
      Agent.report_generator e (Agent.session_id self) (Agent.filename self)
        (profile_dataset d) [] insights insights = Raise ex →
      step_fails e self w
  | profile_dump_fails (d : DataFrame) (ex : exn) :
      Storage.load_dataframe (Agent.pandas e) (Agent.filepath self) = Ret (Some d) →
      Agent.json_dumps_profile e None (profile_dataset d) = Raise ex →
      step_fails e self w
  | report_dump_fails (d : DataFrame) (data_summary : string)
      (insights report : json) (ex : exn) :
      Storage.load_dataframe (Agent.pandas e) (Agent.filepath self) = Ret (Some d) →
      Agent.json_dumps_profile e (Some 2) (profile_dataset d) = Ret data_summary →
      LLM.generate_insights (Agent.llm self) (Agent.network e)
        ("Dataset name: " +:+ Agent.filename self) data_summary = Ret insights →
      Agent.report_generator e (Agent.session_id self) (Agent.filename self)
        (profile_dataset d) [] insights insights = Ret report →
      Agent.json_dumps_report e report = Raise ex →
      step_fails e self w
  | statement_fails (k : nat) :
      (length (Agent.history w) + 3 ≤ k ≤ length (Agent.history w) + 7)%nat →
      Agent.sqlite_commits e k = false →
      step_fails e self w.

(** ** Two routes of the web layer (app.py) *)

Module App.

(** What a view function returns. *)
Inductive response :=
  | render_template (template : string) (context : list (string * json))
  | redirect (endpoint : string)
  | jsonify (body : json) (code : Z).

(** [x or default] for an optional text. *)
Definition or_text (x : option string) (default : string) : string :=
  match x with
  | Some s => if String.eqb s "" then default else s
  | None => default
  end.

(** [session.get("session_id")] followed by [if not session_id]: the id
    in the cookie when there is one and it is not empty. *)
Definition active_session (cookie : option string) : option string :=
  match cookie with
  | Some session => if String.eqb session "" then None else Some session
  | None => None
  end.

(** The view [start_analysis]; [url_for("analysis")] is the route's
    path, [str_exn] is [str(e)]. *)
Definition start_analysis {F} `{PyFloatOps F} (cfg : Config) (e : Agent.env F)
    (str_exn : exn → string) (cookie : option string) (w : Agent.world)
  : response * Agent.world :=
  match active_session cookie with
  | None =>
      (jsonify (JObj [("success", JBool false); ("error", JStr "No active session")])
         400, w)
  | Some session =>
      match Agent.init cfg (Agent.database w) session with
      | Raise ex =>
          (jsonify (JObj [("success", JBool false); ("error", JStr (str_exn ex))])
             500, w)
      | Ret agent =>
          match Agent.run_analysis e agent w with
          | (Ret true, w') =>
              (jsonify (JObj [("success", JBool true); ("redirect", JStr "/analysis")])
                 200, w')
          | (Ret false, w') =>
              (jsonify (JObj [("success", JBool false);
                              ("error", JStr "Analysis failed")]) 500, w')
          | (Raise ex, w') =>
              (jsonify (JObj [("success", JBool false); ("error", JStr (str_exn ex))])
                 500, w')
          end
      end
  end.

(** The view [analysis]; [json_loads] is [json.loads], which raises on
    text that is not JSON. *)
Definition analysis (tie : Storage.tie_break) (json_loads : string → py_result json)
    (cookie : option string) (d : Storage.db) : py_result response :=
  match active_session cookie with
  | None => mret (redirect "upload")
  | Some session =>
      match Storage.get_session d session with
      | None => mret (redirect "overview")
      | Some session_info =>
          if negb (String.eqb (Storage.status session_info) "completed")
          then mret (redirect "overview")
          else
            profile ← json_loads
              (or_text (Storage.get_analysis_result tie d session "profile") "{}");
            charts ← json_loads
              (or_text (Storage.get_analysis_result tie d session "charts") "[]");
            let insights := Storage.get_analysis_result tie d session "insights" in
            mret (render_template "analysis.html"
                    [("filename", JStr (Storage.filename session_info));
                     ("profile", profile);
                     ("charts", charts);
                     ("insights",
                      match insights with Some s => JStr s | None => JNull end)])
      end
  end.

End App.

(** ** Further sample data *)

Module MoreSamples.
Import Samples.

(** The uploaded file reads as the survey data. *)
Definition survey_files : Storage.readers :=
  {| Storage.read_csv := λ _, Ret survey;
     Storage.read_excel := λ _, Raise OSError |}.

(** A world in which every collaborator but the network works. *)
Definition working_env : Agent.env Q :=
  {| Agent.pandas := survey_files;
     Agent.network := unreachable;
     Agent.json_dumps_profile :=
       λ indent _, Ret (match indent with Some _ => "{ }" | None => "{}" end);
     Agent.report_generator := λ _ _ _ _ _ _, Ret (JObj [("title", JStr "Report")]);
     Agent.json_dumps_report := λ _, Ret "{report}";
     Agent.repr := λ _, "?";
     Agent.sqlite_commits := λ _, true;
     Agent.current_timestamp := λ k, (100 + k)%nat |}.

(** A table with one insights row of session s1, saved at time 10. *)
Definition one_result : Storage.db :=
  Storage.save_analysis_result Storage.empty_db 10%nat "s1" "insights" "first".

Definition local_client : LLM.LLMClient :=
  {| LLM.provider := "ollama"; LLM.base_url := "http://localhost:11434/api/generate";
     LLM.model := "llama3"; LLM.api_key := ""; LLM.available := true |}.

(** A local endpoint that answers 200 with the given text. *)
Definition local_endpoint (reply : string) : LLM.transport :=
  λ _, Ret {| LLM.status_code := 200; LLM.text := "";
              LLM.json_body := Ret (JObj [("response", JStr reply)]) |}.

(** A chat endpoint that answers 200 with the given text as content. *)
Definition chat_endpoint (reply : string) : LLM.transport :=
  λ _, Ret {| LLM.status_code := 200; LLM.text := "";
              LLM.json_body :=
                Ret (JObj [("choices",
                            JArr [JObj [("message",
                                         JObj [("role", JStr "assistant");
                                               ("content", JStr reply)])]])]) |}.

Definition s1_row : Storage.session_row :=
  {| Storage.sid := 1; Storage.filename := "data.csv";
     Storage.filepath := "uploads/s1_data.csv";
     Storage.uploaded_at := 0%nat; Storage.status := "uploaded" |}.

Definition str_exn : exn → string := λ _, "error".

(** U+00A0, the no-break space, in UTF-8. *)
Definition no_break_space : string :=
  String (ascii_of_nat 194) (String (ascii_of_nat 160) EmptyString).

End MoreSamples.

(* ================================================================== *)
(** * Properties *)

(** ** Dataset profiler *)

Section Profiler.
Context {F : Type} `{PyFloatOps F}.

Lemma null_count_nullness (c : column) :
  null_count c = foldr Z.add 0 (nullness <$> col_cells c).
Proof.
  unfold null_count. induction (col_cells c) as [|x xs IH]; [done|].
  destruct x as [v|]; cbn [List.filter isnull fmap list_fmap foldr nullness] in *.
  - rewrite IH. lia.
  - rewrite <- IH. cbn [length]. lia.
Qed.

Lemma foldr_add_app (xs ys : list Z) :
  foldr Z.add 0 (xs ++ ys) = foldr Z.add 0 xs + foldr Z.add 0 ys.
Proof. induction xs as [|x xs IH]; cbn; [done | rewrite IH; lia]. Qed.

(** Summing the per-column null counts counts every null cell once. *)
Lemma missing_cells_whole (df : DataFrame) :
  missing_cells df = spec_missing_cells df.
Proof.
  unfold missing_cells, spec_missing_cells, isnull_sum.
  induction (df_columns df) as [|c cs IH]; [done|].
  cbn [fmap list_fmap series_sum foldr concat snd] in *.
  rewrite fmap_app, foldr_add_app, <- IH, null_count_nullness. done.
Qed.

(** C1. For a dataset with [total_cells = total_rows * total_columns > 0]
    the profile's completeness score is
    [round((1 - missing_cells/total_cells) * 100, 2)], with
    [missing_cells] the sum of per-cell nullness over the whole dataset;
    with [total_cells = 0] the score is [0]. *)
Theorem completeness_score_formula (df : DataFrame) :
  let p := profile_dataset df in
  let total_cells := total_rows p * total_columns p in
  (total_rows p, total_columns p) = shape df ∧
  (total_cells > 0 →
     completeness_score p =
     PyFloat (py_round
                (float_mul_int
                   (int_sub_float 1 (int_truediv (spec_missing_cells df) total_cells))
                   100)
                2)) ∧
  (total_cells = 0 → completeness_score p = PyInt 0).
Proof.
  unfold profile_dataset; cbn. rewrite <- missing_cells_whole.
  unfold score_of_counts. split; [done|]. split; intros Hc.
  - destruct (Z.ltb_spec 0 (Z.of_nat (df_index df) * Z.of_nat (length (df_columns df))));
      [done | lia].
  - rewrite Hc. done.
Qed.

End Profiler.

Section ProfilerRuns.
Import Samples.

(** The scenario of the specification: 10 missing cells among 500 give
    a score of 98. *)
Example score_10_of_500 :
  score_of_counts (F := Q) 500 10 = PyFloat (Qmake 9800 100).
Proof. reflexivity. Qed.

(** One missing cell among ten: the score is 90. *)
Lemma completeness_score_formula_witness :
  completeness_score (profile_dataset survey) = PyFloat (Qmake 9000 100).
Proof.
  destruct (completeness_score_formula survey) as (_ & Hpos & _).
  rewrite Hpos; [reflexivity|]. vm_compute. reflexivity.
Defined.

End ProfilerRuns.

(** ** Chart selector *)

Section ChartSelector.
Import Analyzer.
Variable cfg : Config.
Variable ok : renderer.

Lemma frame_ok_init obj :
  frame_ok ok obj {| self := obj; chart_count := 0; attempts := [] |}.
Proof. unfold frame_ok; cbn. rewrite app_nil_r. done. Qed.

Lemma frame_ok_render obj st r :
  frame_ok ok obj st →
  frame_ok ok obj {| self := render ok (self st) r;
                  chart_count := chart_count st + 1;
                  attempts := attempts st ++ [r] |}.
Proof.
  intros (Hc & Hd & Hf & Hn). unfold frame_ok, render; cbn.
  rewrite List.filter_app, fmap_app, length_app; cbn.
  destruct (ok r); cbn; rewrite ?Hc, ?Hd, ?app_nil_r, <- ?app_assoc;
    repeat split; try done; lia.
Qed.

Lemma frame_ok_histogram_loop obj cols st :
  frame_ok ok obj st → frame_ok ok obj (histogram_loop cfg ok cols st).
Proof.
  revert st. induction cols as [|col rest IH]; intros st Hst; cbn; [done|].
  destruct (MAX_CHARTS cfg <=? chart_count st); [done|].
  apply IH. by apply (frame_ok_render obj st (RHistogram col)).
Qed.

Lemma frame_ok_bar_chart_loop obj cols st :
  frame_ok ok obj st → frame_ok ok obj (bar_chart_loop cfg ok cols st).
Proof.
  revert st. induction cols as [|col rest IH]; intros st Hst; cbn; [done|].
  destruct (MAX_CHARTS cfg <=? chart_count st); [done|].
  destruct (nunique col <=? 15); [|by apply IH].
  apply IH. by apply (frame_ok_render obj st (RBarChart col)).
Qed.

Lemma frame_ok_heatmap_step obj cols st :
  frame_ok ok obj st → frame_ok ok obj (heatmap_step cfg ok cols st).
Proof.
  intros Hst. unfold heatmap_step.
  destruct (_ && _); [|done]. by apply (frame_ok_render obj st (RHeatmap cols)).
Qed.

Lemma frame_ok_boxplot_step obj cols st :
  frame_ok ok obj st → frame_ok ok obj (boxplot_step cfg ok cols st).
Proof.
  intros Hst. unfold boxplot_step.
  destruct (_ && _); [|done].
  by apply (frame_ok_render obj st (RBoxplot (take 3 cols))).
Qed.

Lemma frame_ok_analyze obj : frame_ok ok obj (analyze_frame cfg ok obj).
Proof.
  unfold analyze_frame.
  apply frame_ok_boxplot_step, frame_ok_heatmap_step,
    frame_ok_bar_chart_loop, frame_ok_histogram_loop, frame_ok_init.
Qed.

(** The list [analyze] returns is the object's earlier list followed by
    the charts of this run. *)
Lemma analyze_returns obj :
  (analyze cfg ok obj).2 = charts obj ++ new_charts cfg ok obj
  ∧ new_charts cfg ok obj =
      descriptor_of (charts_dir obj) <$>
        List.filter ok (attempts (analyze_frame cfg ok obj)).
Proof.
  destruct (frame_ok_analyze obj) as (Hc & _).
  unfold new_charts, analyze; cbn. rewrite Hc.
  rewrite drop_app_length. done.
Qed.

Lemma within_budget_histogram_loop cols st :
  within_budget cfg st → within_budget cfg (histogram_loop cfg ok cols st).
Proof.
  revert st. induction cols as [|col rest IH]; intros st Hst; cbn; [done|].
  destruct (Z.leb_spec (MAX_CHARTS cfg) (chart_count st)); [done|].
  apply IH. unfold within_budget in *; cbn. lia.
Qed.

Lemma within_budget_bar_chart_loop cols st :
  within_budget cfg st → within_budget cfg (bar_chart_loop cfg ok cols st).
Proof.
  revert st. induction cols as [|col rest IH]; intros st Hst; cbn; [done|].
  destruct (Z.leb_spec (MAX_CHARTS cfg) (chart_count st)); [done|].
  destruct (nunique col <=? 15); [|by apply IH].
  apply IH. unfold within_budget in *; cbn. lia.
Qed.

Lemma within_budget_analyze obj : within_budget cfg (analyze_frame cfg ok obj).
Proof.
  unfold analyze_frame.
  set (st2 := bar_chart_loop _ _ _ _).
  assert (H2 : within_budget cfg st2).
  { apply within_budget_bar_chart_loop, within_budget_histogram_loop.
    unfold within_budget; cbn. lia. }
  set (st3 := heatmap_step _ _ _ st2).
  assert (H3 : within_budget cfg st3).
  { unfold st3, heatmap_step.
    destruct (2 <=? _); cbn; [|done].
    destruct (Z.ltb_spec (chart_count st2) (MAX_CHARTS cfg)); [|done].
    unfold within_budget in *; cbn. lia. }
  unfold boxplot_step.
  destruct (1 <=? _); cbn; [|done].
  destruct (Z.ltb_spec (chart_count st3) (MAX_CHARTS cfg)); [|done].
  unfold within_budget in *; cbn. lia.
Qed.

(** The number of charts of one run is bounded by the counter. *)
Lemma new_charts_le_count obj :
  Z.of_nat (length (new_charts cfg ok obj)) ≤ chart_count (analyze_frame cfg ok obj).
Proof.
  destruct (analyze_returns obj) as [_ ->].
  destruct (frame_ok_analyze obj) as (_ & _ & _ & ->).
  rewrite length_fmap. pose proof (List.filter_length_le ok (attempts (analyze_frame cfg ok obj))).
  lia.
Qed.

(** C2. Whatever the dataset, the renderer's answers and the budget
    [MAX_CHARTS], one run of [DataAnalyzer.analyze] produces at most
    [MAX_CHARTS] charts: the list returned is the object's earlier list
    followed by the new descriptors, and these number at most
    [MAX_CHARTS] for a budget that is a count (not negative), and none
    at all otherwise. *)
Theorem chart_count_within_budget (obj : DataAnalyzer) :
  (analyze cfg ok obj).2 = charts obj ++ new_charts cfg ok obj
  ∧ Z.of_nat (length (new_charts cfg ok obj)) ≤ Z.max 0 (MAX_CHARTS cfg)
  ∧ (0 ≤ MAX_CHARTS cfg →
     Z.of_nat (length (new_charts cfg ok obj)) ≤ MAX_CHARTS cfg).
Proof.
  split; [apply analyze_returns|].
  pose proof (new_charts_le_count obj). pose proof (within_budget_analyze obj) as Hb.
  unfold within_budget in Hb. lia.
Qed.

(** *** Which renders a run attempts *)

Lemma histogram_loop_attempts cols st :
  attempts (histogram_loop cfg ok cols st) =
  attempts st ++
    (RHistogram <$> take (Z.to_nat (MAX_CHARTS cfg - chart_count st)) cols).
Proof.
  revert st. induction cols as [|col rest IH]; intros st; cbn.
  - by rewrite take_nil, app_nil_r.
  - destruct (Z.leb_spec (MAX_CHARTS cfg) (chart_count st)) as [Hle|Hlt].
    + replace (Z.to_nat _) with 0%nat by lia. cbn. by rewrite app_nil_r.
    + rewrite IH; cbn.
      replace (Z.to_nat (MAX_CHARTS cfg - chart_count st))
        with (S (Z.to_nat (MAX_CHARTS cfg - (chart_count st + 1)))) by lia.
      cbn. by rewrite <- app_assoc.
Qed.

Lemma bar_chart_loop_attempts cols st :
  attempts (bar_chart_loop cfg ok cols st) =
  attempts st ++
    (RBarChart <$> take (Z.to_nat (MAX_CHARTS cfg - chart_count st))
                        (List.filter eligible cols)).
Proof.
  revert st. induction cols as [|col rest IH]; intros st; cbn [bar_chart_loop List.filter].
  - by rewrite take_nil, app_nil_r.
  - unfold eligible at 1.
    destruct (Z.leb_spec (MAX_CHARTS cfg) (chart_count st)) as [Hle|Hlt].
    + replace (Z.to_nat _) with 0%nat by lia. rewrite take_0. cbn. by rewrite app_nil_r.
    + destruct (nunique col <=? 15); [|apply IH].
      rewrite IH; cbn.
      replace (Z.to_nat (MAX_CHARTS cfg - chart_count st))
        with (S (Z.to_nat (MAX_CHARTS cfg - (chart_count st + 1)))) by lia.
      cbn. by rewrite <- app_assoc.
Qed.

(** The renders of a run, in order; the renderer's answers play no part
    in the selection. *)
Lemma analyze_attempts obj :
  attempts (analyze_frame cfg ok obj) =
    (RHistogram <$> histogram_cols cfg (df obj))
    ++ (RBarChart <$> bar_chart_cols cfg (df obj))
    ++ heatmap_reqs cfg (df obj) ++ boxplot_reqs cfg (df obj).
Proof.
  unfold analyze_frame.
  set (st0 := {| self := obj; chart_count := 0; attempts := [] |}).
  set (st1 := histogram_loop cfg ok _ st0).
  set (st2 := bar_chart_loop cfg ok _ st1).
  set (st3 := heatmap_step cfg ok _ st2).
  assert (H1 : frame_ok ok obj st1) by apply frame_ok_histogram_loop, frame_ok_init.
  assert (H2 : frame_ok ok obj st2) by by apply frame_ok_bar_chart_loop.
  assert (H3 : frame_ok ok obj st3) by by apply frame_ok_heatmap_step.
  destruct H1 as (_ & _ & _ & C1), H2 as (_ & _ & _ & C2), H3 as (_ & _ & _ & C3).
  assert (A1 : attempts st1 = RHistogram <$> histogram_cols cfg (df obj)).
  { unfold st1. rewrite histogram_loop_attempts. cbn. by rewrite Z.sub_0_r. }
  assert (A2 : attempts st2 =
               (RHistogram <$> histogram_cols cfg (df obj))
               ++ (RBarChart <$> bar_chart_cols cfg (df obj))).
  { unfold st2. rewrite bar_chart_loop_attempts, C1, A1, length_fmap. done. }
  assert (A3 : attempts st3 = attempts st2 ++ heatmap_reqs cfg (df obj)).
  { unfold st3, heatmap_step, heatmap_reqs.
    rewrite C2, A2, length_app, !length_fmap.
    destruct (_ && _); cbn; [done | by rewrite app_nil_r]. }
  unfold boxplot_step, boxplot_reqs.
  rewrite C3, A3, A2, !length_app, !length_fmap, <- !app_assoc.
  destruct (_ && _); cbn; [done|].
  by rewrite app_nil_r, A3, A2, <- app_assoc.
Qed.

Lemma elem_of_take_list {A} (x : A) n (l : list A) : x ∈ take n l → x ∈ l.
Proof.
  intros (i & Hi & _)%elem_of_take. by apply list_elem_of_lookup_2 in Hi.
Qed.

Lemma bar_chart_cols_policy (d : DataFrame) col :
  col ∈ bar_chart_cols cfg d →
  col ∈ take 2 (select_object d) ∧ col_dtype col = DObject ∧ nunique col ≤ 15.
Proof.
  unfold bar_chart_cols. intros Hin%elem_of_take_list%list_elem_of_In%filter_In.
  destruct Hin as [Hin%list_elem_of_In Hel]. split; [done|].
  unfold eligible in Hel. apply Z.leb_le in Hel. split; [|done].
  apply elem_of_take_list in Hin. unfold select_object in Hin.
  apply list_elem_of_In, filter_In in Hin as [_ Hobj].
  unfold is_object in Hobj. by apply bool_decide_eq_true in Hobj.
Qed.

Lemma bar_attempt_iff obj col :
  RBarChart col ∈ attempts (analyze_frame cfg ok obj) ↔ col ∈ bar_chart_cols cfg (df obj).
Proof.
  rewrite analyze_attempts, !elem_of_app, !list_elem_of_fmap.
  split.
  - intros [(x & Hx & _) | [(x & Hx & Hin) | [Hh | Hb]]]; [done | by simplify_eq | |].
    + unfold heatmap_reqs in Hh.
      destruct (_ && _); [apply elem_of_cons in Hh as [Hh|Hh]; [discriminate Hh|]|];
        by apply elem_of_nil in Hh.
    + unfold boxplot_reqs in Hb.
      destruct (_ && _); [apply elem_of_cons in Hb as [Hb|Hb]; [discriminate Hb|]|];
        by apply elem_of_nil in Hb.
  - intros Hin. right; left. eauto.
Qed.

(** C3 (amended). The chart selector's categorical columns are the
    object-dtype columns.  A bar chart is attempted exactly for the
    columns of [bar_chart_cols]: those among the first two object
    columns that have at most 15 distinct values, taken in order while
    budget remains after the histograms.  So a column with more than 15
    distinct values, a column that is not of object dtype and a column
    past the first two never get one (no substitution), at most two
    are attempted, and with enough budget every column of the first
    two with at most 15 distinct values is attempted.  The bar charts
    of a run are the descriptors of the attempted columns whose render
    went through. *)
Theorem bar_chart_policy (obj : DataAnalyzer) :
  let d := df obj in
  let shortlist := take 2 (select_object d) in
  let bars := bar_chart_cols cfg d in
  (∀ col, RBarChart col ∈ attempts (analyze_frame cfg ok obj) ↔ col ∈ bars)
  ∧ (∀ col, col ∈ bars →
       col ∈ shortlist ∧ col_dtype col = DObject ∧ nunique col ≤ 15)
  ∧ (length bars ≤ 2)%nat
  ∧ (Z.of_nat (length (histogram_cols cfg d))
       + Z.of_nat (length (List.filter eligible shortlist)) ≤ MAX_CHARTS cfg →
     ∀ col, col ∈ shortlist → nunique col ≤ 15 → col ∈ bars)
  ∧ (∀ ch, ch ∈ new_charts cfg ok obj ∧ type ch = bar_chart ↔
           ∃ col, col ∈ bars ∧ ok (RBarChart col) = true
                  ∧ ch = bar_chart_descriptor (charts_dir obj) col).
Proof.
  cbn zeta. split; [apply bar_attempt_iff|]. split; [apply bar_chart_cols_policy|].
  split; [|split].
  - unfold bar_chart_cols. rewrite length_take.
    pose proof (List.filter_length_le eligible (take 2 (select_object (df obj)))) as Hf.
    rewrite length_take in Hf. lia.
  - intros Hbudget col Hin Hle. unfold bar_chart_cols.
    rewrite take_ge by lia.
    apply list_elem_of_In, filter_In. split; [by apply list_elem_of_In|].
    unfold eligible. by apply Z.leb_le.
  - intros ch. destruct (analyze_returns obj) as [_ ->].
    rewrite list_elem_of_fmap. split.
    + intros [(r & -> & Hr) Hty].
      apply list_elem_of_In, filter_In in Hr as [Hr%list_elem_of_In Hok].
      destruct r as [c|c|cs|cs]; try discriminate Hty.
      exists c. by rewrite <- bar_attempt_iff.
    + intros (col & Hin & Hok & ->). split; [|done].
      exists (RBarChart col). split; [done|].
      apply list_elem_of_In, filter_In. split; [|done].
      by apply list_elem_of_In, bar_attempt_iff.
Qed.

End ChartSelector.

Section ChartSelectorRuns.
Import Analyzer Samples.

(** The scenario of the specification: four numeric columns and one
    text column of three values, budget 5, give three histograms, one
    bar chart and the heatmap, in that order. *)
Example sales_charts :
  (type <$> new_charts (cfg_of 5) all_ok (init (cfg_of 5) sales "s1"))
  = [histogram; histogram; histogram; bar_chart; heatmap].
Proof. vm_compute. reflexivity. Qed.

(** No substitution: the first text column has 16 distinct values and
    is skipped, the second is charted, and the third, though it has two
    values only, is not looked at. *)
Example contacts_charts :
  title <$> new_charts (cfg_of 5) all_ok (init (cfg_of 5) contacts "s1")
  = ["Top Categories in plan"].
Proof. vm_compute. reflexivity. Qed.

(** The bound at the sales data with a budget of 5. *)
Lemma chart_count_within_budget_witness :
  Z.of_nat (length (new_charts (cfg_of 5) all_ok (init (cfg_of 5) sales "s1"))) ≤ 5.
Proof.
  destruct (chart_count_within_budget (cfg_of 5) all_ok (init (cfg_of 5) sales "s1"))
    as (_ & _ & Hbound).
  apply Hbound. unfold cfg_of; simpl. lia.
Defined.

(** With budget to spare, the text column of the sales data is charted. *)
Lemma bar_chart_policy_witness :
  text_col "region" ["north"; "south"; "east"]
    ∈ bar_chart_cols (cfg_of 5) sales.
Proof.
  apply (bar_chart_policy (cfg_of 5) all_ok (init (cfg_of 5) sales "s1")).
  - vm_compute. intros Hgt. discriminate Hgt.
  - vm_compute. apply list_elem_of_here.
  - vm_compute. intros Hgt. discriminate Hgt.
Defined.

(** C3 as the specification words it fails: a boolean column is
    non-numeric and has two distinct values, it is the first
    non-numeric column, no chart at all is drawn so the budget is
    untouched, every render would succeed, and yet it gets no bar
    chart. *)
Lemma non_numeric_column_without_bar_chart :
  ¬ (∀ (cfg : Config) (ok : renderer) (obj : DataAnalyzer) (col : column),
       col ∈ take 2 (select_not_number (df obj)) →
       nunique col ≤ 15 →
       Z.of_nat (length (new_charts cfg ok obj)) < MAX_CHARTS cfg →
       (∀ r, ok r = true) →
       bar_chart_descriptor (charts_dir obj) col ∈ new_charts cfg ok obj).
Proof.
  intros Hclaim.
  specialize (Hclaim (cfg_of 5) all_ok (init (cfg_of 5) flags "s1") flag_col).
  assert (Hin : bar_chart_descriptor (charts_dir (init (cfg_of 5) flags "s1")) flag_col
                ∈ new_charts (cfg_of 5) all_ok (init (cfg_of 5) flags "s1")).
  { apply Hclaim.
    - vm_compute. apply list_elem_of_here.
    - vm_compute. intros Hgt. discriminate Hgt.
    - vm_compute. reflexivity.
    - done. }
  vm_compute in Hin. by apply elem_of_nil in Hin.
Qed.

(** C10. The counter of a run is the number of renders attempted, and
    which renders are attempted does not depend on whether they
    succeed, while only the successful ones leave a descriptor: a
    failed render uses up a slot of [MAX_CHARTS].  With three numeric
    columns, a budget of 3 and a first histogram that fails, the run
    ends with two charts, fewer than the budget, and neither the
    heatmap nor the box plot is attempted although both are eligible
    (two or more numeric columns). *)
Theorem failed_render_consumes_budget :
  (∀ (cfg : Config) (ok : renderer) (obj : DataAnalyzer),
     let st := analyze_frame cfg ok obj in
     chart_count st = Z.of_nat (length (attempts st))
     ∧ attempts st = attempts (analyze_frame cfg all_ok obj)
     ∧ new_charts cfg ok obj =
         descriptor_of (charts_dir obj) <$> List.filter ok (attempts st))
  ∧ (let obj := init (cfg_of 3) readings "s1" in
     let st := analyze_frame (cfg_of 3) x_fails obj in
     2 ≤ Z.of_nat (length (select_number (df obj)))
     ∧ x_fails (RHistogram (num_col "x" [1; 2; 3])) = false
     ∧ (type <$> new_charts (cfg_of 3) x_fails obj) = [histogram; histogram]
     ∧ Z.of_nat (length (new_charts (cfg_of 3) x_fails obj)) < MAX_CHARTS (cfg_of 3)
     ∧ chart_count st = MAX_CHARTS (cfg_of 3)
     ∧ (RHeatmap (select_number (df obj)) ∉ attempts st)
     ∧ (RBoxplot (take 3 (select_number (df obj))) ∉ attempts st)).
Proof.
  split.
  - intros cfg ok obj. cbn zeta. split; [apply frame_ok_analyze|].
    split; [by rewrite !analyze_attempts | apply analyze_returns].
  - cbn zeta. repeat split; try (vm_compute; (reflexivity || discriminate)).
    + vm_compute. intros H. repeat (apply elem_of_cons in H as [H|H]; [discriminate H|]).
      by apply elem_of_nil in H.
    + vm_compute. intros H. repeat (apply elem_of_cons in H as [H|H]; [discriminate H|]).
      by apply elem_of_nil in H.
Qed.

End ChartSelectorRuns.

(** ** Result store *)

Section ResultStore.
Import Storage.

(** The row the query keeps is one of those scanned (or the running
    best), and none has a later [created_at]. *)
Lemma order_by_created_at_desc_limit_1_spec tie best rows :
  match order_by_created_at_desc_limit_1 tie best rows with
  | Some r =>
      (best = Some r ∨ r ∈ rows)
      ∧ (∀ r', r' ∈ rows → (created_at r' ≤ created_at r)%nat)
      ∧ (∀ b, best = Some b → (created_at b ≤ created_at r)%nat)
  | None => best = None ∧ rows = []
  end.
Proof.
  revert best. induction rows as [|r rest IH]; intros best; cbn.
  - destruct best as [b|]; [|done].
    split; [by left|]. split; [by intros r' ?%elem_of_nil|].
    by intros ? [= ->].
  - set (best' := match best with
                  | None => Some r
                  | Some b => if better tie b r then Some r else Some b
                  end).
    assert (Hbest' : ∃ b', best' = Some b'
              ∧ (b' = r ∨ best = Some b')
              ∧ (created_at r ≤ created_at b')%nat
              ∧ ∀ b, best = Some b → (created_at b ≤ created_at b')%nat).
    { unfold best'. destruct best as [b|].
      - unfold better.
        destruct (Nat.ltb_spec (created_at b) (created_at r)) as [Hlt|Hge]; cbn.
        + exists r. repeat split; [by left | lia |]. intros ? [= <-]. lia.
        + destruct (Nat.eqb_spec (created_at b) (created_at r)) as [Heq|Hne]; cbn.
          * destruct (tie b r).
            -- exists r. repeat split; [by left | lia |]. intros ? [= <-]. lia.
            -- exists b. repeat split; [by right | lia |]. by intros ? [= <-].
          * exists b. repeat split; [by right | lia |]. by intros ? [= <-].
      - exists r. repeat split; [by left | lia | done]. }
    destruct Hbest' as (b' & Hb' & Hsrc & Hr & Hold).
    specialize (IH best'). rewrite Hb' in *.
    destruct (order_by_created_at_desc_limit_1 tie (Some b') rest) as [w|];
      [|by destruct IH].
    destruct IH as (Hw & Hmax & Hge). specialize (Hge b' eq_refl).
    split; [|split].
    + destruct Hw as [[= <-] | Hin].
      * destruct Hsrc as [-> | Hsrc]; [right; apply list_elem_of_here | by left].
      * right. by apply list_elem_of_further.
    + intros r' [-> | Hin]%elem_of_cons; [lia | by apply Hmax].
    + intros b Hb. specialize (Hold b Hb). lia.
Qed.

Lemma has_key_true session ty r :
  has_key session ty r = true ↔ session_id r = session ∧ result_type r = ty.
Proof.
  unfold has_key. rewrite andb_true_iff, !String.eqb_eq. done.
Qed.

(** C4. After any sequence of store calls, [saveResult] calls with the
    same result type among them, [getLatestResult] answers the
    [result_data] of a stored row of that (session_id, result_type)
    with the greatest [created_at] among the rows of that key, and
    answers absent when the table holds no row of that key. *)
Theorem get_latest_result_max_created_at
    (tie : tie_break) (d0 : db) (ops : list op) (session ty : string) :
  let d := foldl exec d0 ops in
  match get_analysis_result tie d session ty with
  | Some data =>
      ∃ r, r ∈ analysis_results d
           ∧ session_id r = session ∧ result_type r = ty
           ∧ result_data r = data
           ∧ ∀ r', r' ∈ analysis_results d →
                   session_id r' = session → result_type r' = ty →
                   (created_at r' ≤ created_at r)%nat
  | None =>
      ∀ r, r ∈ analysis_results d →
           ¬ (session_id r = session ∧ result_type r = ty)
  end.
Proof.
  intros d.
  unfold get_analysis_result, fetch_latest.
  pose proof (order_by_created_at_desc_limit_1_spec tie None
                (List.filter (has_key session ty) (analysis_results d))) as Hq.
  destruct (order_by_created_at_desc_limit_1 _ _ _) as [w|]; cbn.
  - destruct Hq as ([Hw | Hw] & Hmax & _); [done|].
    apply list_elem_of_In, filter_In in Hw as [Hw%list_elem_of_In Hk].
    apply has_key_true in Hk as [Hs Ht].
    exists w. repeat split; try done.
    intros r' Hin Hs' Ht'. apply Hmax, list_elem_of_In, filter_In.
    split; [by apply list_elem_of_In | by apply has_key_true].
  - destruct Hq as [_ Hnil]. intros r Hin Hk%has_key_true.
    assert (Hf : In r (List.filter (has_key session ty) (analysis_results d))).
    { apply filter_In. split; [by apply list_elem_of_In | done]. }
    rewrite Hnil in Hf. destruct Hf.
Qed.

(** Two saves of one key, the later one with the later timestamp: the
    later text is read back. *)
Example rerun_reads_back_latest :
  let d := foldl exec empty_db
             [SaveAnalysisResult 10%nat "s1" "insights" "first";
              SaveAnalysisResult 12%nat "s1" "insights" "second"] in
  get_analysis_result (λ _ _, false) d "s1" "insights" = Some "second"
  ∧ get_analysis_result (λ _ _, true) d "s1" "insights" = Some "second"
  ∧ get_analysis_result (λ _ _, true) d "s1" "report" = None.
Proof. vm_compute. done. Qed.

Lemma exec_analysis_results (d : db) (o : op) :
  analysis_results (exec d o) =
  analysis_results d ++
    match o with
    | SaveAnalysisResult now session ty data =>
        [new_result_row d now session ty data]
    | _ => []
    end.
Proof.
  destruct o; cbn; rewrite ?app_nil_r; try done.
  unfold insert_session. destruct (sessions d !! session); cbn; by rewrite ?app_nil_r.
Qed.

(** C5. A [saveResult] call inserts exactly one row, with the values
    given, after the rows already stored and leaves those as they
    were; over any sequence of store calls the table only grows at its
    end, by one row per [saveResult]: no row is updated or deleted. *)
Theorem analysis_results_append_only :
  (∀ (d : db) now session ty data,
     ∃ row,
       analysis_results (save_analysis_result d now session ty data)
         = analysis_results d ++ [row]
       ∧ session_id row = session ∧ result_type row = ty
       ∧ result_data row = data ∧ created_at row = now)
  ∧ (∀ (ops : list op) (d : db),
       ∃ added,
         analysis_results (foldl exec d ops) = analysis_results d ++ added
         ∧ length added = length (List.filter is_save ops)).
Proof.
  split.
  - intros d now session ty data.
    by exists (new_result_row d now session ty data).
  - induction ops as [|o ops IH]; intros d; cbn [foldl List.filter].
    + exists []. by rewrite app_nil_r.
    + destruct (IH (exec d o)) as (added & Heq & Hlen).
      rewrite Heq, exec_analysis_results.
      destruct o; cbn [is_save];
        rewrite ?app_nil_r, <- ?app_assoc; eexists; (split; [done|]); cbn; by rewrite ?Hlen.
Qed.

(** *** Loading a dataset *)

Lemma load_dataframe_cases (pd : readers) (path : string) :
  load_dataframe pd path =
  if supported path
  then match read pd path with
       | Ret d => Ret (Some d)
       | Raise _ => Ret None
       end
  else Ret None.
Proof.
  unfold load_dataframe, supported, read, file_ext, rsplit_dot_1.
  destruct (after_last_dot path) as [ext|]; cbn; [|done].
  destruct (String.eqb_spec (lower ext) "csv") as [-> | Hne].
  - rewrite (bool_decide_eq_true_2 (_ ∈ _)) by apply list_elem_of_here.
    rewrite (bool_decide_eq_true_2 (_ = _)) by done.
    by destruct (read_csv pd path).
  - rewrite (bool_decide_eq_false_2 (Some (lower ext) = Some "csv")) by congruence.
    destruct (bool_decide (lower ext ∈ ["xlsx"; "xls"])) eqn:Hx.
    + apply bool_decide_eq_true in Hx.
      rewrite (bool_decide_eq_true_2 (_ ∈ _)) by (by apply list_elem_of_further).
      by destruct (read_excel pd path).
    + apply bool_decide_eq_false in Hx.
      rewrite (bool_decide_eq_false_2 (_ ∈ _)); [done|].
      intros [? | ?]%elem_of_cons; done.
Qed.

(** C9. [loadDataset] yields an absent result rather than a dataset if
    and only if the file is unreadable (the reader for its extension
    raises), has an unsupported extension (not csv, xlsx or xls, or
    none at all) or is empty (the reader finds nothing to parse);
    otherwise, and only then, it returns the dataset the reader loaded;
    it never raises. *)
Theorem load_dataframe_absent_iff (pd : readers) (path : string) :
  (load_dataframe pd path = Ret None
     ↔ unreadable pd path ∨ supported path = false ∨ file_is_empty pd path)
  ∧ (load_dataframe pd path = Ret None
     ↔ supported path = false ∨ unreadable pd path)
  ∧ (∀ d, load_dataframe pd path = Ret (Some d)
          ↔ supported path = true ∧ read pd path = Ret d)
  ∧ (∀ e, load_dataframe pd path ≠ Raise e).
Proof.
  rewrite load_dataframe_cases. unfold unreadable, file_is_empty.
  destruct (supported path), (read pd path) as [d0 | e0].
  - split; [|split; [|split]]; [split | split | intros d; split | done].
    + done.
    + intros [[e ?] | [? | ?]]; done.
    + done.
    + intros [? | [e ?]]; done.
    + intros [= ->]. done.
    + intros [_ [= ->]]. done.
  - split; [|split; [|split]]; [split | split | intros d; split | done].
    + intros _. left. by exists e0.
    + done.
    + intros _. right. by exists e0.
    + done.
    + done.
    + intros [_ ?]. done.
  - split; [|split; [|split]]; [split | split | intros d; split | done].
    + intros _. right. by left.
    + done.
    + intros _. by left.
    + done.
    + done.
    + intros [? _]. done.
  - split; [|split; [|split]]; [split | split | intros d; split | done].
    + intros _. right. by left.
    + done.
    + intros _. by left.
    + done.
    + done.
    + intros [? _]. done.
Qed.

(** A file with a header line and no data line is not an empty file:
    it is read, and the dataset it holds, with its columns and no row,
    is what [load_dataframe] returns. *)
Example header_only_file_is_loaded :
  load_dataframe Samples.header_only_files "data.csv" = Ret (Some Samples.header_only)
  ∧ ¬ file_is_empty Samples.header_only_files "data.csv".
Proof. split; [reflexivity | discriminate]. Qed.

End ResultStore.

(** ** Insight client *)

Section InsightClient.
Import LLM.
Variable self : LLMClient.
Variable post : transport.

Lemma _make_request_returns prompt max_tokens temperature :
  ∃ r, _make_request self post prompt max_tokens temperature = Ret r.
Proof.
  unfold _make_request.
  destruct (_make_request_try self post prompt max_tokens temperature); cbn; eauto.
Qed.

Lemma _make_request_on_failure prompt max_tokens temperature :
  endpoint_fails post (request_of self prompt max_tokens temperature) →
  _make_request self post prompt max_tokens temperature = Ret JNull.
Proof.
  unfold endpoint_fails, _make_request, _make_request_try, request_of.
  destruct (String.eqb (provider self) "ollama");
    intros [[e ->] | (response & -> & Hst)]; cbn; try done;
    by destruct (Z.eqb_spec (status_code response) 200).
Qed.

Lemma _make_request_ollama prompt max_tokens temperature r :
  provider self = "ollama" →
  _make_request self post prompt max_tokens temperature = Ret r →
  r = JNull ∨ is_text r.
Proof.
  unfold _make_request, _make_request_try, is_text. intros ->. cbn.
  destruct (post _) as [response|]; cbn; [|intros [= <-]; by left].
  destruct (_ =? 200); cbn; [|intros [= <-]; by left].
  destruct (json_body response) as [body|]; cbn; [|intros [= <-]; by left].
  destruct (py_get body "response" (JStr "")) as [answer|]; cbn;
    [|intros [= <-]; by left].
  destruct answer; cbn; intros [= <-]; eauto.
Qed.

Lemma fallback_truthy : truthy (JStr _fallback_insights) = true.
Proof. reflexivity. Qed.

Lemma truthy_text s : truthy (JStr s) = true → s ≠ "".
Proof. cbn. intros Hs ->. discriminate Hs. Qed.

(** C6 (amended). [generate_insights] never raises.  When the client is
    marked unavailable or the endpoint call fails (the transport raises:
    timeout, connection error; or the status is not 200) it returns the
    fixed fallback text.  In every case the value returned is either
    that fallback text or the reply [_make_request] extracted, and it is
    never empty; it is a non-empty text whenever that reply is a text or
    [None], which is always so with the local (ollama) provider. *)
Theorem generate_insights_fallback (context data_summary : string) :
  let prompt := insights_prompt context data_summary in
  ∃ v, generate_insights self post context data_summary = Ret v
     ∧ truthy v = true
     ∧ _fallback_insights ≠ ""
     ∧ (available self = false
        ∨ endpoint_fails post (request_of self prompt 800 (Qmake 7 10)) →
        v = JStr _fallback_insights)
     ∧ (v = JStr _fallback_insights
        ∨ _make_request self post prompt 800 (Qmake 7 10) = Ret v)
     ∧ (∀ s, v = JStr s → s ≠ "")
     ∧ ((∀ r, _make_request self post prompt 800 (Qmake 7 10) = Ret r →
              r = JNull ∨ is_text r) →
        is_text v)
     ∧ (provider self = "ollama" → is_text v).
Proof.
  cbn zeta. unfold generate_insights.
  destruct (_make_request_returns (insights_prompt context data_summary)
              800 (Qmake 7 10)) as [r Hr].
  assert (Hfb : is_text (JStr _fallback_insights)) by by eexists.
  destruct (available self) eqn:Hav; cbn.
  - rewrite Hr; cbn. destruct (truthy r) eqn:Ht; cbn.
    + exists r. split; [done|]. split; [done|]. split; [done|].
      split; [|split; [|split; [|split]]].
      * intros [? | Hfail]; [done|].
        apply _make_request_on_failure in Hfail. rewrite Hfail in Hr.
        injection Hr as <-. discriminate Ht.
      * by right.
      * intros s ->. by apply truthy_text.
      * intros Hreply. destruct (Hreply r eq_refl) as [-> | ?]; [discriminate Ht | done].
      * intros Hp. destruct (_make_request_ollama _ _ _ r Hp Hr) as [-> | ?];
          [discriminate Ht | done].
    + exists (JStr _fallback_insights). repeat split; try done; try by left.
      intros s [= <-]. done.
  - exists (JStr _fallback_insights). repeat split; try done; try by left.
    intros s [= <-]. done.
Qed.

End InsightClient.

Section InsightClientRuns.
Import LLM Samples.

(** Nobody answers at the endpoint: the fallback text comes back. *)
Lemma generate_insights_fallback_witness :
  generate_insights hosted_client unreachable "Dataset name: sales.csv" "{}"
  = Ret (JStr _fallback_insights).
Proof.
  destruct (generate_insights_fallback hosted_client unreachable
              "Dataset name: sales.csv" "{}") as (v & -> & _ & _ & Hfail & _).
  f_equal. apply Hfail. right. left. by exists RequestException.
Defined.

(** C6 as worded fails on its last clause: when a hosted
    endpoint answers 200 with a message content that is not a string
    (here a list of content parts), that value is returned as it is,
    and it is not a text. *)
Lemma non_text_reply_is_returned :
  ¬ (∀ (self : LLMClient) (post : transport) (context data_summary : string),
       ∃ s, generate_insights self post context data_summary = Ret (JStr s)
            ∧ s ≠ "").
Proof.
  intros Hclaim.
  destruct (Hclaim hosted_client parts_endpoint "Dataset name: sales.csv" "{}")
    as (s & Hs & _).
  vm_compute in Hs. discriminate Hs.
Qed.

End InsightClientRuns.

(** ** Orchestrator *)

Section Orchestrator.
Import Agent.
Context {F : Type} `{PyFloatOps F}.
Variable e : env F.
Variable self : Agent.

Ltac unfold_run :=
  unfold run_analysis, try_catch, run_analysis_try;
  unfold mbind, M_bind, mret, M_ret, lift, record, raise,
    Agent.save_analysis_result, Agent.update_session_status, execute;
  cbn -[profile_dataset].

Ltac run_step :=
  match goal with
  | |- context [match ?x with _ => _ end] =>
      match type of x with
      | py_result _ => destruct x eqn:?
      | option _ => destruct x eqn:?
      | bool => destruct x eqn:?
      end; cbn -[profile_dataset]
  end.

(** C7. When the session's dataset fails to load or has zero rows, the
    run ends right after the load: it returns [False], neither the
    insight request nor the report composition takes place, and the
    database is as it was, so no profile, charts, insights or report
    row is stored. *)
Theorem empty_dataset_aborts (w : world) :
  (Storage.load_dataframe (pandas e) (filepath self) = Ret None
   ∨ ∃ d, Storage.load_dataframe (pandas e) (filepath self) = Ret (Some d)
          ∧ df_index d = 0%nat) →
  ∃ w', run_analysis e self w = (Ret false, w')
        ∧ database w' = database w
        ∧ events_of_run w w' = [DatasetLoaded (filepath self)]
        ∧ saved_types (events_of_run w w') = []
        ∧ (InsightsRequested ∉ events_of_run w w')
        ∧ (ReportComposed ∉ events_of_run w w').
Proof.
  intros Hload.
  assert (Hrun : run_analysis e self w =
            (Ret false, {| database := database w;
                           history := history w ++ [DatasetLoaded (filepath self)] |})).
  { unfold_run. destruct Hload as [-> | (d & -> & Hrows)]; cbn; [done|].
    unfold empty. rewrite Hrows. done. }
  eexists. split; [exact Hrun|]. unfold events_of_run; cbn.
  rewrite drop_app_length. repeat split; try done.
  - intros [Hin | Hin]%elem_of_cons; [discriminate Hin | by apply elem_of_nil in Hin].
  - intros [Hin | Hin]%elem_of_cons; [discriminate Hin | by apply elem_of_nil in Hin].
Qed.

Ltac lengths :=
  repeat match goal with
  | Hc : context [length (_ ++ _)] |- _ => rewrite length_app in Hc; cbn [length] in Hc
  end.

Ltac no_step_fails :=
  let Hf := fresh "Hf" in
  intros Hf; exfalso; destruct Hf as [Hf | ? ? ? | ? ? ? ? | ? ? ? ? ? ?
    | ? ? ? ? ? ? ? ? | ? ? ? ? | ? ? ? ? ? ? ? ? ? ? | k Hk Hf];
  [ eapply Hf; eassumption
  | congruence | congruence | congruence | congruence | congruence | congruence
  | lengths;
    repeat match goal with
    | Hc : sqlite_commits e ?X = true |- _ =>
        destruct (decide (X = k)) as [Heq | ?];
        [rewrite Heq in Hc; congruence | clear Hc]
    end; lia ].

Ltac a_step_fails :=
  lengths;
  first
    [ by apply load_fails; intros ?; congruence
    | by eapply dataset_is_empty; eassumption
    | by eapply summary_dump_fails; eassumption
    | by eapply insights_fail; eassumption
    | by eapply composer_fails; eassumption
    | by eapply profile_dump_fails; eassumption
    | by eapply report_dump_fails; eassumption
    | match goal with
      | Hc : sqlite_commits e ?X = false |- _ =>
          apply (statement_fails _ _ _ X); [lia | exact Hc]
      end ].

(** C8. A run never raises, and it ends in one of two ways.  Either it
    returns [True]: its events are those of a complete run, the four
    results saved in order and then the one status write, of the value
    'completed', and the session table is the earlier one with that
    session's status set to 'completed'.  Or it returns [False]: it
    wrote no status at all and the session table is as it was.  So
    'analyzing' and 'error' are never written.  And when any step of
    the run fails (the load, a serialisation, the insight request, the
    report composer or one of the five database statements), the run
    is of the second kind: it returns [False], writes no status and
    leaves every session's row, status included, as it was; a run
    returns [False] for no other reason. *)
Theorem status_written_only_completed (w : world) :
  ∃ (b : bool) (w' : world),
    run_analysis e self w = (Ret b, w')
    ∧ (let evs := events_of_run w w' in
       (b = true
        ∧ evs = complete_run self
        ∧ saved_types evs = ["profile"; "charts"; "insights"; "report"]
        ∧ status_writes evs = ["completed"]
        ∧ Storage.sessions (database w') =
            alter (Storage.set_status "completed") (session_id self)
                  (Storage.sessions (database w)))
       ∨ (b = false
          ∧ status_writes evs = []
          ∧ Storage.sessions (database w') = Storage.sessions (database w)))
    ∧ (step_fails e self w →
       b = false
       ∧ status_writes (events_of_run w w') = []
       ∧ Storage.sessions (database w') = Storage.sessions (database w))
    ∧ (b = false → step_fails e self w).
Proof.
  unfold_run.
  repeat run_step.
  all: eexists _, _; split; [reflexivity|].
  all: unfold events_of_run; cbn -[profile_dataset]; rewrite <- ?app_assoc, drop_app_length;
     cbn -[profile_dataset].
  all: split; [first [by right | by left]|].
  all: split; [try (by intros _) | try (by intros [=])].
  all: first [intros _; a_step_fails | no_step_fails].
Qed.

End Orchestrator.

Section OrchestratorRuns.
Import Agent Samples.

(** A run on an upload that holds a header line only. *)
Lemma empty_dataset_aborts_witness :
  ∃ w', run_analysis header_only_env agent_s1 uploaded_s1 = (Ret false, w')
        ∧ database w' = database uploaded_s1.
Proof.
  destruct (empty_dataset_aborts header_only_env agent_s1 uploaded_s1)
    as (w' & Hrun & Hdb & _).
  - right. exists header_only. split; reflexivity.
  - by exists w'.
Defined.

(** A run on an upload that holds a header line only: the load step
    fails on the empty dataset, and the session table stays as it was. *)
Lemma status_written_only_completed_witness :
  step_fails header_only_env agent_s1 uploaded_s1
  ∧ ∃ w', run_analysis header_only_env agent_s1 uploaded_s1 = (Ret false, w')
          ∧ status_writes (events_of_run uploaded_s1 w') = []
          ∧ Storage.sessions (database w') = Storage.sessions (database uploaded_s1).
Proof.
  assert (Hf : step_fails header_only_env agent_s1 uploaded_s1).
  { apply (dataset_is_empty _ _ _ header_only); reflexivity. }
  split; [exact Hf|].
  destruct (status_written_only_completed header_only_env agent_s1 uploaded_s1)
    as (b & w' & Hrun & _ & Hfail & _).
  destruct (Hfail Hf) as (-> & Hst & Hs).
  by exists w'.
Defined.

End OrchestratorRuns.


(** ** Result store: uploads, sessions and read-back *)

Section StoreOperations.
Import Storage.

Lemma after_last_dot_app (stem ext : string) :
  after_last_dot ext = None →
  after_last_dot (stem +:+ "." +:+ ext) = Some ext.
Proof.
  intros Hext. induction stem as [|c stem IH].
  - change ("" +:+ "." +:+ ext) with (String "." ext).
    cbn [after_last_dot]. by rewrite Hext.
  - change (String c stem +:+ "." +:+ ext) with (String c (stem +:+ "." +:+ ext)).
    cbn [after_last_dot]. by rewrite IH.
Qed.

(** X1. [allowed_file] looks at the text after the last dot only, and
    without regard to case: a name [stem.ext] is allowed exactly when
    [ext] in lower case is one of [ALLOWED_EXTENSIONS]; a name with no
    dot is refused. *)
Theorem allowed_file_by_extension (cfg : Config) (stem ext : string) :
  after_last_dot ext = None →
  allowed_file cfg (stem +:+ "." +:+ ext)
    = bool_decide (lower ext ∈ ALLOWED_EXTENSIONS cfg)
  ∧ allowed_file cfg ext = false.
Proof.
  intros Hext. unfold allowed_file.
  rewrite (after_last_dot_app stem ext Hext), Hext. done.
Qed.

(** X2. [save_upload] on an allowed file name and a fresh session id
    registers the session: the session is read back with the secured
    file name, the path built from session id, time stamp and name, and
    the status 'uploaded'; every other session and every stored result
    is as before.  On a session id already present it raises, and on a
    missing file or a refused name it returns no path and leaves the
    database as it was. *)
Theorem save_upload_outcomes (cfg : Config) (secure_filename : string → string)
    (d : db) (now : timestamp) (stamp : string) (file : option string)
    (session : string) :
  match file with
  | Some name =>
      if allowed_file cfg name then
        match sessions d !! session with
        | Some _ =>
            save_upload cfg secure_filename d now stamp file session
            = Raise SqliteError
        | None =>
            ∃ d',
              let fname := secure_filename name in
              let path := path_join (UPLOAD_FOLDER cfg)
                            (session +:+ "_" +:+ stamp +:+ "_" +:+ fname) in
              save_upload cfg secure_filename d now stamp file session
              = Ret (d', Some (path, fname))
              ∧ get_session d' session
                = Some {| sid := S (sessions_seq d); filename := fname;
                          filepath := path; uploaded_at := now;
                          status := "uploaded" |}
              ∧ (∀ other, other ≠ session →
                          get_session d' other = get_session d other)
              ∧ analysis_results d' = analysis_results d
        end
      else save_upload cfg secure_filename d now stamp file session = Ret (d, None)
  | None => save_upload cfg secure_filename d now stamp file session = Ret (d, None)
  end.
Proof.
  unfold save_upload, insert_session, get_session.
  destruct file as [name|]; [|done].
  destruct (allowed_file cfg name); [|done].
  destruct (sessions d !! session) eqn:Hs; cbn; [done|].
  eexists. split; [reflexivity|]. cbn. split; [|split; [|done]].
  - by rewrite lookup_insert_eq.
  - intros other Hne. by rewrite lookup_insert_ne.
Qed.

(** X3. [update_session_status] replaces the status of the session named
    and nothing else: its file name, path and upload time stay, the
    other sessions and the stored results stay, and for a session id
    that is not registered the database is unchanged (no row appears). *)
Theorem update_session_status_effect (d : db) (session st : string) :
  let d' := update_session_status d session st in
  get_session d' session = set_status st <$> get_session d session
  ∧ (∀ r', get_session d' session = Some r' →
           status r' = st
           ∧ ∃ r, get_session d session = Some r
                  ∧ filename r' = filename r ∧ filepath r' = filepath r
                  ∧ uploaded_at r' = uploaded_at r ∧ sid r' = sid r)
  ∧ (∀ other, other ≠ session → get_session d' other = get_session d other)
  ∧ analysis_results d' = analysis_results d
  ∧ (get_session d session = None → d' = d).
Proof.
  cbn zeta. unfold update_session_status, get_session; cbn.
  rewrite lookup_alter_eq. split; [done|]. split; [|split; [|split; [done|]]].
  - intros r' Hr'. destruct (sessions d !! session) as [r|]; [|done].
    injection Hr' as <-. split; [done|]. by exists r.
  - intros other Hne. by rewrite lookup_alter_ne.
  - intros Hnone. destruct d as [ss sq ar rq]; cbn in *. f_equal.
    apply alter_id. intros x Hx. congruence.
Qed.

(** The query's pick over rows scanned one after another. *)
Lemma order_by_app tie best rows more :
  order_by_created_at_desc_limit_1 tie best (rows ++ more)
  = order_by_created_at_desc_limit_1 tie
      (order_by_created_at_desc_limit_1 tie best rows) more.
Proof.
  revert best. induction rows as [|r rows IH]; intros best; cbn; [done|].
  apply IH.
Qed.

(** X4. Read-back: after [save_analysis_result] at a time later than
    every stored row of the same session and result type,
    [get_analysis_result] for that key answers the text just saved. *)
Theorem save_then_get_latest (tie : tie_break) (d : db) (now : timestamp)
    (session ty data : string) :
  later_than_stored d session ty now →
  get_analysis_result tie (save_analysis_result d now session ty data) session ty
  = Some data.
Proof.
  intros Hlater. unfold get_analysis_result, fetch_latest, save_analysis_result; cbn.
  rewrite List.filter_app, order_by_app. cbn.
  unfold has_key at 2; cbn. rewrite !String.eqb_refl; cbn.
  pose proof (order_by_created_at_desc_limit_1_spec tie None
                (List.filter (has_key session ty) (analysis_results d))) as Hq.
  destruct (order_by_created_at_desc_limit_1 tie None _) as [b|]; cbn; [|done].
  destruct Hq as ([Hb | Hb] & _); [done|].
  apply list_elem_of_In, filter_In in Hb as [Hb%list_elem_of_In Hk].
  apply has_key_true in Hk as [Hs Ht].
  specialize (Hlater b Hb Hs Ht). apply Nat.ltb_lt in Hlater.
  unfold better. cbn [new_result_row created_at]. by rewrite Hlater.
Qed.

(** X5. A save under one key does not change what is read under another
    session id or another result type. *)
Theorem save_leaves_other_keys (tie : tie_break) (d : db) (now : timestamp)
    (session ty data session' ty' : string) :
  session' ≠ session ∨ ty' ≠ ty →
  get_analysis_result tie (save_analysis_result d now session ty data) session' ty'
  = get_analysis_result tie d session' ty'.
Proof.
  intros Hne. unfold get_analysis_result, fetch_latest, save_analysis_result; cbn.
  rewrite List.filter_app. cbn.
  assert (Hk : has_key session' ty' (new_result_row d now session ty data) = false).
  { apply not_true_iff_false. intros [Hs Ht]%has_key_true. cbn in *.
    destruct Hne as [Hne | Hne]; congruence. }
  rewrite Hk, app_nil_r. done.
Qed.

Lemma session_kept_exec (d : db) (o : op) (session : string) (r : session_row) :
  sessions d !! session = Some r →
  ∃ r', sessions (exec d o) !! session = Some r'
        ∧ filename r' = filename r ∧ filepath r' = filepath r
        ∧ uploaded_at r' = uploaded_at r ∧ sid r' = sid r.
Proof.
  intros Hr.
  destruct o as [now s name path | s | s st | now s ty data | s ty]; cbn;
    try (by exists r).
  - unfold insert_session. destruct (sessions d !! s) eqn:Hs; cbn; [by exists r|].
    exists r. split; [|done]. rewrite lookup_insert_ne; [done|]. congruence.
  - rewrite lookup_alter. destruct (decide (s = session)) as [-> | Hne].
    + rewrite Hr; cbn. by eexists.
    + by exists r.
Qed.

(** X7. No store call removes a session or rewrites its file name, path
    or upload time: a session registered once is still there, with the
    same values, after any sequence of store calls; only its status can
    differ. *)
Theorem sessions_are_kept (ops : list op) (d : db) (session : string)
    (r : session_row) :
  get_session d session = Some r →
  ∃ r', get_session (foldl exec d ops) session = Some r'
        ∧ filename r' = filename r ∧ filepath r' = filepath r
        ∧ uploaded_at r' = uploaded_at r ∧ sid r' = sid r.
Proof.
  unfold get_session. revert d r.
  induction ops as [|o ops IH]; intros d r Hr; cbn; [by exists r|].
  destruct (session_kept_exec d o session r Hr) as (r1 & Hr1 & Hf & Hp & Hu & Hi).
  destruct (IH _ _ Hr1) as (r' & Hr' & Hf' & Hp' & Hu' & Hi').
  exists r'. split; [done|]. repeat split; congruence.
Qed.

(** X8. The upload filter and the loader agree: when the configuration
    allows csv, xlsx and xls only, a file name accepted by
    [allowed_file] has an extension [load_dataframe] dispatches on, so
    loading it comes down to what the pandas reader does. *)
Theorem allowed_file_is_supported (cfg : Config) (pd : readers) (name : string) :
  ALLOWED_EXTENSIONS cfg ⊆ ["csv"; "xlsx"; "xls"] →
  allowed_file cfg name = true →
  supported name = true
  ∧ load_dataframe pd name
    = match read pd name with
      | Ret frame => Ret (Some frame)
      | Raise _ => Ret None
      end.
Proof.
  intros Hcfg Hok.
  assert (Hsup : supported name = true).
  { unfold allowed_file in Hok. unfold supported, file_ext.
    destruct (after_last_dot name) as [ext|]; [|done]. cbn.
    apply bool_decide_eq_true in Hok. apply bool_decide_eq_true. by apply Hcfg. }
  split; [done|]. by rewrite load_dataframe_cases, Hsup.
Qed.

End StoreOperations.


(** ** Chart selector: order, conditions, file names *)

Section ChartSelection.
Import Analyzer.
Variable cfg : Config.
Variable ok : renderer.

Lemma type_descriptor_of (dir : string) (r : render_req) :
  type (descriptor_of dir r) = kind r.
Proof. by destruct r. Qed.

Lemma types_of_new_charts (obj : DataAnalyzer) :
  type <$> new_charts cfg ok obj
  = kind <$> List.filter ok (attempts (analyze_frame cfg ok obj)).
Proof.
  destruct (analyze_returns cfg ok obj) as [_ ->].
  induction (List.filter ok _) as [|r l IH]; cbn; [done|].
  by rewrite IH, type_descriptor_of.
Qed.

Lemma kinds_of_one_kind (k : chart_type) (l : list render_req) :
  Forall (λ r, kind r = k) l →
  kind <$> List.filter ok l = replicate (length (List.filter ok l)) k.
Proof.
  induction 1 as [|r l Hr _ IH]; cbn; [done|].
  destruct (ok r); cbn; [by rewrite IH, Hr | done].
Qed.

Lemma heatmap_reqs_length (d : DataFrame) :
  Forall (λ r, kind r = heatmap) (heatmap_reqs cfg d)
  ∧ (length (heatmap_reqs cfg d) ≤ 1)%nat.
Proof.
  unfold heatmap_reqs. destruct (_ && _); cbn; split; try lia; by repeat constructor.
Qed.

Lemma boxplot_reqs_length (d : DataFrame) :
  Forall (λ r, kind r = boxplot) (boxplot_reqs cfg d)
  ∧ (length (boxplot_reqs cfg d) ≤ 1)%nat.
Proof.
  unfold boxplot_reqs. destruct (_ && _); cbn; split; try lia; by repeat constructor.
Qed.

(** X9. The charts of a run come in priority order whatever the budget
    and the renderer: histograms first, then bar charts, then the
    heatmap, then the box plot, and never more than three histograms,
    two bar charts, one heatmap and one box plot. *)
Theorem chart_types_in_priority_order (obj : DataAnalyzer) :
  ∃ h b m x : nat,
    type <$> new_charts cfg ok obj
    = replicate h histogram ++ replicate b bar_chart
      ++ replicate m heatmap ++ replicate x boxplot
    ∧ (h ≤ 3)%nat ∧ (b ≤ 2)%nat ∧ (m ≤ 1)%nat ∧ (x ≤ 1)%nat.
Proof.
  rewrite types_of_new_charts, analyze_attempts, !List.filter_app, !fmap_app.
  destruct (heatmap_reqs_length (df obj)) as [Hm Hm1].
  destruct (boxplot_reqs_length (df obj)) as [Hx Hx1].
  rewrite (kinds_of_one_kind histogram), (kinds_of_one_kind bar_chart),
    (kinds_of_one_kind heatmap), (kinds_of_one_kind boxplot); try done.
  - do 4 eexists. split; [reflexivity|].
    pose proof (List.filter_length_le ok (RHistogram <$> histogram_cols cfg (df obj))) as Hh.
    pose proof (List.filter_length_le ok (RBarChart <$> bar_chart_cols cfg (df obj))) as Hb.
    pose proof (List.filter_length_le ok (heatmap_reqs cfg (df obj))).
    pose proof (List.filter_length_le ok (boxplot_reqs cfg (df obj))).
    rewrite length_fmap in Hh, Hb. unfold histogram_cols, bar_chart_cols in *.
    pose proof (List.filter_length_le eligible (take 2 (select_object (df obj)))) as He.
    rewrite !length_take in *. lia.
  - apply Forall_fmap, Forall_true. done.
  - apply Forall_fmap, Forall_true. done.
Qed.

Lemma descriptor_is_heatmap (dir : string) (r : render_req) :
  descriptor_of dir r = heatmap_descriptor dir → ∃ cols, r = RHeatmap cols.
Proof.
  intros Hd. assert (Hk : kind r = heatmap) by by rewrite <- (type_descriptor_of dir), Hd.
  destruct r; try discriminate Hk. by eexists.
Qed.

Lemma descriptor_is_boxplot (dir : string) (r : render_req) :
  descriptor_of dir r = boxplot_descriptor dir → ∃ cols, r = RBoxplot cols.
Proof.
  intros Hd. assert (Hk : kind r = boxplot) by by rewrite <- (type_descriptor_of dir), Hd.
  destruct r; try discriminate Hk. by eexists.
Qed.

Lemma elem_of_new_charts (obj : DataAnalyzer) (ch : ChartDescriptor) :
  ch ∈ new_charts cfg ok obj ↔
  ∃ r, ch = descriptor_of (charts_dir obj) r ∧ ok r = true
       ∧ r ∈ attempts (analyze_frame cfg ok obj).
Proof.
  destruct (analyze_returns cfg ok obj) as [_ ->].
  rewrite list_elem_of_fmap. split.
  - intros (r & -> & Hr). apply list_elem_of_In, filter_In in Hr as [Hr Hok].
    exists r. by rewrite list_elem_of_In.
  - intros (r & -> & Hok & Hr). exists r. split; [done|].
    apply list_elem_of_In, filter_In. by rewrite <- list_elem_of_In.
Qed.

(** X10. The correlation heatmap is among the charts of a run exactly
    when the dataset has at least two numeric columns, budget is left
    after the histograms and bar charts attempted, and its render goes
    through. *)
Theorem heatmap_drawn_iff (obj : DataAnalyzer) :
  heatmap_descriptor (charts_dir obj) ∈ new_charts cfg ok obj ↔
  2 ≤ Z.of_nat (length (select_number (df obj)))
  ∧ used_before_heatmap cfg (df obj) < MAX_CHARTS cfg
  ∧ ok (RHeatmap (select_number (df obj))) = true.
Proof.
  rewrite elem_of_new_charts, analyze_attempts. unfold used_before_heatmap.
  split.
  - intros (r & Hd & Hok & Hr). symmetry in Hd.
    apply descriptor_is_heatmap in Hd as [cols ->].
    rewrite !elem_of_app, !list_elem_of_fmap in Hr.
    destruct Hr as [(? & ? & _) | [(? & ? & _) | [Hr | Hr]]]; try done.
    + unfold heatmap_reqs in Hr.
      destruct (Z.leb_spec 2 (Z.of_nat (length (select_number (df obj)))));
        cbn in Hr; [|by apply elem_of_nil in Hr].
      rewrite Nat2Z.inj_add in Hr.
      destruct (Z.ltb_spec
                  (Z.of_nat (length (histogram_cols cfg (df obj)))
                   + Z.of_nat (length (bar_chart_cols cfg (df obj))))
                  (MAX_CHARTS cfg)); [|by apply elem_of_nil in Hr].
      apply list_elem_of_singleton in Hr. injection Hr as ->. done.
    + unfold boxplot_reqs in Hr.
      destruct (_ && _); [apply list_elem_of_singleton in Hr; discriminate Hr|].
      by apply elem_of_nil in Hr.
  - intros (Hn & Hb & Hok). exists (RHeatmap (select_number (df obj))).
    split; [done|]. split; [done|].
    rewrite !elem_of_app. right; right; left. unfold heatmap_reqs.
    rewrite Nat2Z.inj_add.
    destruct (Z.leb_spec 2 (Z.of_nat (length (select_number (df obj))))); [|lia].
    destruct (Z.ltb_spec
                (Z.of_nat (length (histogram_cols cfg (df obj)))
                 + Z.of_nat (length (bar_chart_cols cfg (df obj))))
                (MAX_CHARTS cfg)); [|lia].
    cbn. apply list_elem_of_here.
Qed.

(** X11. [analyze] does not reset [self.charts]: a second run on the
    same object returns the charts of the first run followed by those of
    the second, so every chart that rendered both times is listed twice. *)
Theorem analyze_twice_accumulates (obj : DataAnalyzer) :
  let first := analyze cfg ok obj in
  let second := analyze cfg ok first.1 in
  first.2 = charts obj ++ new_charts cfg ok obj
  ∧ second.2 = charts obj ++ new_charts cfg ok obj ++ new_charts cfg ok obj.
Proof.
  cbn zeta. split; [apply analyze_returns|].
  destruct (analyze_returns cfg ok (analyze cfg ok obj).1) as [-> ->].
  destruct (analyze_returns cfg ok obj) as [_ ->].
  destruct (frame_ok_analyze cfg ok obj) as (Hc & Hd & Hf & _).
  unfold analyze at 1 2 3; cbn.
  rewrite !analyze_attempts. unfold analyze; cbn.
  rewrite Hc, Hd, Hf, !analyze_attempts, <- app_assoc. done.
Qed.

(** X12. With a budget of seven or more nothing is held back: a run
    attempts a histogram for each of the first three numeric columns, a
    bar chart for each of the first two object columns with at most 15
    distinct values, the heatmap when there are two numeric columns or
    more and the box plot when there is one or more, in this order. *)
Theorem analyze_with_ample_budget (obj : DataAnalyzer) :
  7 ≤ MAX_CHARTS cfg →
  let numeric_cols := select_number (df obj) in
  attempts (analyze_frame cfg ok obj)
  = (RHistogram <$> take 3 numeric_cols)
    ++ (RBarChart <$> List.filter eligible (take 2 (select_object (df obj))))
    ++ (if 2 <=? Z.of_nat (length numeric_cols) then [RHeatmap numeric_cols] else [])
    ++ (if 1 <=? Z.of_nat (length numeric_cols)
        then [RBoxplot (take 3 numeric_cols)] else []).
Proof.
  intros Hmax. cbn zeta. rewrite analyze_attempts.
  assert (Hh : histogram_cols cfg (df obj) = take 3 (select_number (df obj))).
  { unfold histogram_cols. apply take_ge. rewrite length_take. lia. }
  assert (Hb : bar_chart_cols cfg (df obj)
               = List.filter eligible (take 2 (select_object (df obj)))).
  { unfold bar_chart_cols. apply take_ge. rewrite Hh.
    pose proof (List.filter_length_le eligible (take 2 (select_object (df obj)))) as He.
    rewrite !length_take in *. lia. }
  assert (Hlen : (length (histogram_cols cfg (df obj))
                  + length (bar_chart_cols cfg (df obj)) ≤ 5)%nat).
  { rewrite Hh, Hb.
    pose proof (List.filter_length_le eligible (take 2 (select_object (df obj)))) as He.
    rewrite !length_take in *. lia. }
  assert (Hm : heatmap_reqs cfg (df obj)
               = if 2 <=? Z.of_nat (length (select_number (df obj)))
                 then [RHeatmap (select_number (df obj))] else []).
  { unfold heatmap_reqs. destruct (2 <=? _); cbn; [|done].
    destruct (Z.ltb_spec (Z.of_nat (length (histogram_cols cfg (df obj))
                                    + length (bar_chart_cols cfg (df obj))))
                (MAX_CHARTS cfg)); [done | lia]. }
  assert (Hx : boxplot_reqs cfg (df obj)
               = if 1 <=? Z.of_nat (length (select_number (df obj)))
                 then [RBoxplot (take 3 (select_number (df obj)))] else []).
  { unfold boxplot_reqs. destruct (1 <=? _); cbn; [|done].
    destruct (heatmap_reqs_length (df obj)) as [_ Hm1].
    destruct (Z.ltb_spec (Z.of_nat (length (histogram_cols cfg (df obj))
                                    + length (bar_chart_cols cfg (df obj))
                                    + length (heatmap_reqs cfg (df obj))))
                (MAX_CHARTS cfg)); [done | lia]. }
  by rewrite Hx, Hm, Hb, Hh.
Qed.

End ChartSelection.


(** ** Chart selector: the box plot and the file names *)

Section ChartFiles.
Import Analyzer.

(** X13. The box plot is among the charts of a run exactly when the
    dataset has at least one numeric column, budget is left after the
    histograms, the bar charts and the heatmap attempted, and its render
    goes through; it is drawn over the first three numeric columns. *)
Theorem boxplot_drawn_iff (cfg : Config) (ok : renderer) (obj : DataAnalyzer) :
  boxplot_descriptor (charts_dir obj) ∈ new_charts cfg ok obj ↔
  1 ≤ Z.of_nat (length (select_number (df obj)))
  ∧ used_before_heatmap cfg (df obj)
    + Z.of_nat (length (heatmap_reqs cfg (df obj))) < MAX_CHARTS cfg
  ∧ ok (RBoxplot (take 3 (select_number (df obj)))) = true.
Proof.
  rewrite elem_of_new_charts, analyze_attempts. unfold used_before_heatmap.
  split.
  - intros (r & Hd & Hok & Hr). symmetry in Hd.
    apply descriptor_is_boxplot in Hd as [cols ->].
    rewrite !elem_of_app, !list_elem_of_fmap in Hr.
    destruct Hr as [(? & ? & _) | [(? & ? & _) | [Hr | Hr]]]; try done.
    + unfold heatmap_reqs in Hr.
      destruct (_ && _); [apply list_elem_of_singleton in Hr; discriminate Hr|].
      by apply elem_of_nil in Hr.
    + unfold boxplot_reqs in Hr.
      destruct (Z.leb_spec 1 (Z.of_nat (length (select_number (df obj)))));
        cbn in Hr; [|by apply elem_of_nil in Hr].
      rewrite !Nat2Z.inj_add in Hr.
      destruct (Z.ltb_spec
                  (Z.of_nat (length (histogram_cols cfg (df obj)))
                   + Z.of_nat (length (bar_chart_cols cfg (df obj)))
                   + Z.of_nat (length (heatmap_reqs cfg (df obj))))
                  (MAX_CHARTS cfg)); [|by apply elem_of_nil in Hr].
      apply list_elem_of_singleton in Hr. injection Hr as ->. done.
  - intros (Hn & Hb & Hok). exists (RBoxplot (take 3 (select_number (df obj)))).
    split; [done|]. split; [done|].
    rewrite !elem_of_app. right; right; right. unfold boxplot_reqs.
    rewrite !Nat2Z.inj_add.
    destruct (Z.leb_spec 1 (Z.of_nat (length (select_number (df obj))))); [|lia].
    destruct (Z.ltb_spec
                (Z.of_nat (length (histogram_cols cfg (df obj)))
                 + Z.of_nat (length (bar_chart_cols cfg (df obj)))
                 + Z.of_nat (length (heatmap_reqs cfg (df obj))))
                (MAX_CHARTS cfg)); [|lia].
    cbn. apply list_elem_of_here.
Qed.

Lemma append_cons (c : ascii) (a b : string) :
  String c a +:+ b = String c (a +:+ b).
Proof. reflexivity. Qed.

Lemma append_nil_l (s : string) : "" +:+ s = s.
Proof. reflexivity. Qed.

Lemma contains_append (c : ascii) (a b : string) :
  contains c (a +:+ b) = contains c a || contains c b.
Proof.
  induction a as [|x a IH]; [done|].
  rewrite append_cons. cbn [contains]. rewrite IH. by destruct (Ascii.eqb x c).
Qed.

Lemma replace_space_no_space (s : string) : contains " " (replace_space s) = false.
Proof.
  induction s as [|x s IH]; [done|]. cbn [replace_space contains]. rewrite IH.
  by destruct (Ascii.eqb_spec x " ") as [-> | Hne]; [|apply Ascii.eqb_neq in Hne; rewrite Hne].
Qed.

Lemma replace_space_id (s : string) : contains " " s = false → replace_space s = s.
Proof.
  induction s as [|x s IH]; [done|]. cbn [replace_space contains].
  intros [Hx Hs]%orb_false_iff. by rewrite Hx, IH.
Qed.

Lemma length_append (a b : string) :
  String.length (a +:+ b) = (String.length a + String.length b)%nat.
Proof.
  induction a as [|x a IH]; [done|]. rewrite append_cons. cbn. by rewrite IH.
Qed.

Lemma append_inj_l (a b s : string) : a +:+ s = b +:+ s → a = b.
Proof.
  revert b. induction a as [|x a IH]; intros [|y b] Heq; [done| | |].
  - apply (f_equal String.length) in Heq.
    rewrite !length_append in Heq. cbn in Heq. lia.
  - apply (f_equal String.length) in Heq.
    rewrite !length_append in Heq. cbn in Heq. lia.
  - rewrite !append_cons in Heq. injection Heq as -> Heq. by rewrite (IH b Heq).
Qed.

(** X14. The file name of a chart holds no space, and charts of
    different types never share a file name. *)
Theorem chart_filenames (dir : string) (r1 r2 : render_req) :
  contains " " (filename (descriptor_of dir r1)) = false
  ∧ (kind r1 ≠ kind r2 →
     filename (descriptor_of dir r1) ≠ filename (descriptor_of dir r2)).
Proof.
  split.
  - destruct r1; cbn [descriptor_of histogram_descriptor bar_chart_descriptor
                      heatmap_descriptor boxplot_descriptor filename];
      rewrite ?contains_append, ?replace_space_no_space; reflexivity.
  - destruct r1, r2; cbn [kind]; intros Hk Heq; try done;
      cbv [descriptor_of histogram_descriptor bar_chart_descriptor
           heatmap_descriptor boxplot_descriptor filename String.append] in Heq;
      discriminate Heq.
Qed.

(** X15. For column names that hold no space, different names give
    different histogram files and different bar-chart files. *)
Theorem chart_filenames_distinct (dir : string) (c1 c2 : column) :
  contains " " (col_name c1) = false →
  contains " " (col_name c2) = false →
  (filename (histogram_descriptor dir c1) = filename (histogram_descriptor dir c2)
   → col_name c1 = col_name c2)
  ∧ (filename (bar_chart_descriptor dir c1) = filename (bar_chart_descriptor dir c2)
     → col_name c1 = col_name c2).
Proof.
  intros H1 H2. cbn [histogram_descriptor bar_chart_descriptor filename].
  rewrite !(replace_space_id _ H1), !(replace_space_id _ H2).
  split; intros Heq.
  - rewrite !(append_cons _ _ (col_name _ +:+ ".png")) in Heq.
    injection Heq as Heq. rewrite !append_nil_l in Heq. by apply append_inj_l in Heq.
  - rewrite !(append_cons _ _ (col_name _ +:+ ".png")) in Heq.
    injection Heq as Heq. rewrite !append_nil_l in Heq. by apply append_inj_l in Heq.
Qed.

End ChartFiles.


(** ** Stripping whitespace *)

Section DropWhile.
Variable step : list ascii → option (list ascii).
Hypothesis step_suffix : ∀ l r, step l = Some r → ∃ k, k ≠ [] ∧ l = k ++ r.

Lemma step_shorter (l r : list ascii) :
  step l = Some r → (length r < length l)%nat.
Proof.
  intros (k & Hk & ->)%step_suffix. rewrite length_app.
  destruct k; [done|]. cbn. lia.
Qed.

Lemma drop_while_done (fuel : nat) (l : list ascii) :
  (length l ≤ fuel)%nat → step (drop_while step fuel l) = None.
Proof.
  revert l. induction fuel as [|fuel IH]; intros l Hl; cbn.
  - destruct (step l) as [r|] eqn:Hr; [|done].
    apply step_shorter in Hr. lia.
  - destruct (step l) as [r|] eqn:Hr; [|done].
    apply IH. apply step_shorter in Hr. lia.
Qed.

Lemma drop_while_suffix (fuel : nat) (l : list ascii) :
  ∃ k, l = k ++ drop_while step fuel l.
Proof.
  revert l. induction fuel as [|fuel IH]; intros l; cbn; [by exists []|].
  destruct (step l) as [r|] eqn:Hr; [|by exists []].
  apply step_suffix in Hr as (k & _ & ->). destruct (IH r) as [k' Hk'].
  exists (k ++ k'). by rewrite <- app_assoc, <- Hk'.
Qed.

Lemma drop_while_id (fuel : nat) (l : list ascii) :
  step l = None → drop_while step fuel l = l.
Proof. intros Hl. destruct fuel; cbn; by rewrite ?Hl. Qed.

End DropWhile.

Section Stripping.

Lemma drop_space_suffix (l r : list ascii) :
  drop_space l = Some r → ∃ k, k ≠ [] ∧ l = k ++ r.
Proof.
  unfold drop_space. intros Hl.
  destruct l as [|a [|b [|c l]]]; repeat case_match; simplify_eq;
    first [ by exists [a] | by exists [a; b] | by exists [a; b; c] ].
Qed.

Lemma drop_space_rev_suffix (l r : list ascii) :
  drop_space_rev l = Some r → ∃ k, k ≠ [] ∧ l = k ++ r.
Proof.
  unfold drop_space_rev. intros Hl.
  destruct l as [|a [|b [|c l]]]; repeat case_match; simplify_eq;
    first [ by exists [a] | by exists [a; b] | by exists [a; b; c] ].
Qed.

(** A whitespace character at the head of a text is one at the head of
    every text that starts with it. *)
Lemma drop_space_app (u r w : list ascii) :
  drop_space u = Some r → drop_space (u ++ w) = Some (r ++ w).
Proof.
  unfold drop_space. intros Hu.
  destruct u as [|a [|b [|c u]]]; cbn in *; repeat case_match; simplify_eq; done.
Qed.

Lemma lstrip_bytes_done (l : list ascii) : drop_space (lstrip_bytes l) = None.
Proof. apply drop_while_done; [apply drop_space_suffix | done]. Qed.

Lemma rstrip_bytes_done (l : list ascii) :
  drop_space_rev (reverse (rstrip_bytes l)) = None.
Proof.
  unfold rstrip_bytes. rewrite reverse_involutive.
  apply drop_while_done; [apply drop_space_rev_suffix | by rewrite length_reverse].
Qed.

Lemma rstrip_bytes_prefix (l : list ascii) : ∃ k, l = rstrip_bytes l ++ k.
Proof.
  unfold rstrip_bytes.
  destruct (drop_while_suffix drop_space_rev drop_space_rev_suffix
              (length l) (reverse l)) as [k Hk].
  exists (reverse k).
  rewrite <- reverse_app, <- Hk. by rewrite reverse_involutive.
Qed.

Lemma lstrip_bytes_id (l : list ascii) : drop_space l = None → lstrip_bytes l = l.
Proof. apply drop_while_id. Qed.

Lemma rstrip_bytes_id (l : list ascii) :
  drop_space_rev (reverse l) = None → rstrip_bytes l = l.
Proof.
  intros Hl. unfold rstrip_bytes. rewrite drop_while_id by done.
  apply reverse_involutive.
Qed.

Lemma strip_bytes_idem (l : list ascii) :
  rstrip_bytes (lstrip_bytes (rstrip_bytes (lstrip_bytes l)))
  = rstrip_bytes (lstrip_bytes l).
Proof.
  set (m := lstrip_bytes l).
  assert (Hhead : drop_space (rstrip_bytes m) = None).
  { destruct (drop_space (rstrip_bytes m)) as [r|] eqn:Hr; [|done].
    destruct (rstrip_bytes_prefix m) as [k Hk].
    apply (drop_space_app _ _ k) in Hr. rewrite <- Hk in Hr.
    unfold m in Hr. by rewrite lstrip_bytes_done in Hr. }
  rewrite (lstrip_bytes_id _ Hhead).
  apply rstrip_bytes_id, rstrip_bytes_done.
Qed.

Lemma all_space_from_dropped (fuel : nat) (l : list ascii) :
  all_space_from fuel l = true → drop_while drop_space fuel l = [].
Proof.
  revert l. induction fuel as [|fuel IH]; intros l; cbn.
  - by destruct l.
  - destruct l as [|a l]; [done|].
    destruct (drop_space (a :: l)) as [r|]; [apply IH | done].
Qed.

Lemma strip_idem (s : string) : strip (strip s) = strip s.
Proof.
  unfold strip, rstrip, lstrip.
  rewrite !list_ascii_of_string_of_list_ascii. by rewrite strip_bytes_idem.
Qed.

Lemma strip_all_space (s : string) : all_space s = true → strip s = "".
Proof.
  unfold all_space, strip, rstrip, lstrip, lstrip_bytes. intros Hs.
  by rewrite (all_space_from_dropped _ _ Hs).
Qed.

End Stripping.

(** ** Insight client: the other operations and the replies *)

Section InsightOperations.
Import LLM LLMOps.
Variable self : LLMClient.
Variable post : transport.

Lemma with_fallback (prompt : string) (max_tokens : Z) (temperature : Q)
    (fallback : string) :
  truthy (JStr fallback) = true →
  falls_back
    (if negb (available self) then mret (JStr fallback)
     else response ← _make_request self post prompt max_tokens temperature;
          if truthy response then mret response else mret (JStr fallback))
    self post (request_of self prompt max_tokens temperature) fallback.
Proof.
  intros Hfb. unfold falls_back.
  destruct (_make_request_returns self post prompt max_tokens temperature) as [r Hr].
  destruct (available self) eqn:Hav; cbn.
  - rewrite Hr; cbn. destruct (truthy r) eqn:Ht; cbn.
    + exists r. split; [done|]. split; [done|].
      intros [? | Hfail]; [done|].
      rewrite (_make_request_on_failure self post _ _ _ Hfail) in Hr.
      injection Hr as <-. discriminate Ht.
    + by exists (JStr fallback).
  - by exists (JStr fallback).
Qed.

(** X16. The executive summary, the recommendations and the chart
    explanation never raise and never return an empty value; each
    returns its own fallback text when the client is marked unavailable
    or its endpoint call fails (the transport raises, or the status is
    not 200).  The fallback of the chart explanation quotes the chart
    description. *)
Theorem other_operations_fall_back (analysis_results chart_description
    data_context : string) :
  falls_back (generate_executive_summary self post analysis_results) self post
    (request_of self (summary_prompt analysis_results) 600 (Qmake 7 10))
    _fallback_summary
  ∧ falls_back (generate_recommendations self post analysis_results) self post
      (request_of self (recommendations_prompt analysis_results) 500 (Qmake 7 10))
      _fallback_recommendations
  ∧ falls_back (explain_chart self post chart_description data_context) self post
      (request_of self (chart_prompt chart_description data_context) 200 (Qmake 7 10))
      ("This chart shows: " +:+ chart_description).
Proof.
  split; [|split].
  - by apply with_fallback.
  - by apply with_fallback.
  - by apply with_fallback.
Qed.

(** X17. The availability probe never raises; it answers [False] when
    the probe's endpoint call fails, and [True] exactly when
    [_make_request] extracted something other than [None], an empty
    text included. *)
Theorem check_availability_probe :
  ∃ b, _check_availability self post = Ret b
       ∧ (endpoint_fails post (request_of self "Hello" 10 (Qmake 7 10)) → b = false)
       ∧ (b = true ↔
          ∃ r, _make_request self post "Hello" 10 (Qmake 7 10) = Ret r ∧ r ≠ JNull).
Proof.
  unfold _check_availability.
  destruct (_make_request_returns self post "Hello" 10 (Qmake 7 10)) as [r Hr].
  rewrite Hr; cbn. eexists. split; [reflexivity|]. split.
  - intros Hfail. rewrite (_make_request_on_failure self post _ _ _ Hfail) in Hr.
    by injection Hr as <-.
  - split.
    + intros Hb. exists r. split; [done|]. by intros ->.
    + intros (r' & [= <-] & Hne). by destruct r.
Qed.

(** X18. With the local provider the token limit and the temperature
    are not sent: [_make_request] gives the same result whatever their
    values. *)
Theorem ollama_ignores_sampling_settings (prompt : string)
    (max_tokens max_tokens' : Z) (temperature temperature' : Q) :
  provider self = "ollama" →
  request_of self prompt max_tokens temperature
    = request_of self prompt max_tokens' temperature'
  ∧ _make_request self post prompt max_tokens temperature
    = _make_request self post prompt max_tokens' temperature'.
Proof.
  intros Hp. unfold _make_request, _make_request_try, request_of.
  by rewrite Hp.
Qed.

(** X19. A hosted endpoint that answers 200 with a non-empty text at
    [choices[0].message.content] gets that text returned as it is,
    surrounding whitespace included. *)
Theorem hosted_reply_verbatim (context data_summary : string)
    (response : http_response) (body : json) (reply : string) :
  available self = true →
  provider self ≠ "ollama" →
  post (chat_request self (insights_prompt context data_summary) 800 (Qmake 7 10))
    = Ret response →
  status_code response = 200 →
  json_body response = Ret body →
  chat_content body = Ret (JStr reply) →
  reply ≠ "" →
  generate_insights self post context data_summary = Ret (JStr reply).
Proof.
  intros Hav Hp Hpost Hst Hbody Hcontent Hne.
  unfold generate_insights, _make_request, _make_request_try.
  apply String.eqb_neq in Hp. rewrite Hav, Hp; cbn.
  rewrite Hpost; cbn. rewrite Hst; cbn. rewrite Hbody; cbn.
  unfold chat_content in Hcontent. cbn in Hcontent. rewrite Hcontent; cbn.
  apply String.eqb_neq in Hne. by rewrite Hne.
Qed.

(** X20. With the local provider, a 200 answer whose [response] field is
    a text is returned stripped of surrounding whitespace (stripping it
    again changes nothing); when nothing is left, as for a reply made
    of whitespace only or an empty one, the fallback text is returned. *)
Theorem local_reply_stripped (context data_summary : string)
    (response : http_response) (body : json) (reply : string) :
  available self = true →
  provider self = "ollama" →
  post (ollama_request self (insights_prompt context data_summary)) = Ret response →
  status_code response = 200 →
  json_body response = Ret body →
  py_get body "response" (JStr "") = Ret (JStr reply) →
  generate_insights self post context data_summary
    = Ret (JStr (if String.eqb (strip reply) "" then _fallback_insights
                 else strip reply))
  ∧ strip (strip reply) = strip reply
  ∧ (all_space reply = true → strip reply = "").
Proof.
  intros Hav Hp Hpost Hst Hbody Hget. split; [|split].
  - unfold generate_insights, _make_request, _make_request_try.
    rewrite Hav, Hp; cbn. rewrite Hpost; cbn. rewrite Hst; cbn.
    rewrite Hbody; cbn. rewrite Hget; cbn.
    by destruct (String.eqb (strip reply) "").
  - apply strip_idem.
  - apply strip_all_space.
Qed.

End InsightOperations.


(** ** Dataset profiler: the other fields of the profile *)

Section ProfileFields.
Context {F : Type} `{PyFloatOps F}.

Lemma partition_by_dtype (cols : list column) :
  (col_name <$> List.filter is_number cols)
  ++ (col_name <$> List.filter (λ c, negb (is_number c)) cols)
  ≡ₚ col_name <$> cols.
Proof.
  induction cols as [|c cols IH]; cbn; [done|].
  destruct (is_number c); cbn.
  - by rewrite IH.
  - by rewrite <- Permutation_middle, IH.
Qed.

(** X21. The profile sorts every column into exactly one of its two
    lists: the numeric and the categorical labels together are the
    frame's column labels, each column once, so the two lists add up to
    [total_columns]. *)
Theorem profile_partitions_columns (df : DataFrame) :
  let p := profile_dataset df in
  numeric p ++ categorical p ≡ₚ col_name <$> df_columns df
  ∧ Z.of_nat (length (numeric p)) + Z.of_nat (length (categorical p))
    = total_columns p.
Proof.
  cbn zeta. unfold profile_dataset; cbn.
  unfold columns_tolist, select_number, select_not_number.
  pose proof (partition_by_dtype (df_columns df)) as Hp.
  split; [done|]. apply Permutation_length in Hp.
  rewrite length_app, !length_fmap in Hp. rewrite !length_fmap. lia.
Qed.

Lemma null_count_bounds (c : column) :
  0 ≤ null_count c ≤ Z.of_nat (length (col_cells c)).
Proof.
  unfold null_count. pose proof (List.filter_length_le isnull (col_cells c)). lia.
Qed.

Lemma null_sums_bounds (n : nat) (cols : list column) :
  Forall (λ c, length (col_cells c) = n) cols →
  let entries := (λ c, (col_name c, null_count c)) <$> cols in
  entries.*1 = col_name <$> cols
  ∧ Forall (λ kv, 0 ≤ kv.2 ≤ Z.of_nat n) entries
  ∧ 0 ≤ series_sum entries ≤ Z.of_nat n * Z.of_nat (length cols).
Proof.
  cbn zeta. induction 1 as [|c cols Hc Hcols IH]; cbn.
  - repeat split; try done. lia.
  - destruct IH as (Hn & Hb & Hs).
    pose proof (null_count_bounds c) as Hnc. rewrite Hc in Hnc.
    split; [by rewrite Hn|]. split; [by constructor|].
    change (foldr _ 0 _) with
      (series_sum ((λ c0 : column, (col_name c0, null_count c0)) <$> cols)).
    rewrite Nat2Z.inj_succ. nia.
Qed.

(** X22. In the profile of a frame whose columns all have as many cells
    as the index, [missing_values_per_column] has one entry per column,
    in column order, each between 0 and [total_rows]; the entries add up
    to the missing-cell count used for the score, which therefore lies
    between 0 and [total_rows * total_columns]. *)
Theorem missing_values_bounds (df : DataFrame) :
  well_formed df →
  let p := profile_dataset df in
  (missing_values_per_column p).*1 = col_name <$> df_columns df
  ∧ Forall (λ kv, 0 ≤ kv.2 ≤ total_rows p) (missing_values_per_column p)
  ∧ series_sum (missing_values_per_column p) = spec_missing_cells df
  ∧ 0 ≤ spec_missing_cells df ≤ total_rows p * total_columns p.
Proof.
  intros Hwf. cbn zeta. unfold profile_dataset; cbn.
  rewrite <- missing_cells_whole. unfold missing_cells, isnull_sum.
  destruct (null_sums_bounds (df_index df) (df_columns df) Hwf) as (Hn & Hb & Hs).
  done.
Qed.

(** X23. The integer score 0 is the score of an empty frame only: for a
    frame that passes the emptiness test of [run_analysis] the score is
    the rounded float, and for an empty frame it is [0]. *)
Theorem score_is_float_unless_empty (df : DataFrame) :
  (empty df = false →
   ∃ x, completeness_score (profile_dataset df) = PyFloat x)
  ∧ (empty df = true → completeness_score (profile_dataset df) = PyInt 0).
Proof.
  unfold profile_dataset, score_of_counts, empty; cbn.
  destruct (Nat.eqb_spec (df_index df) 0) as [Hr | Hr];
    destruct (Nat.eqb_spec (length (df_columns df)) 0) as [Hc | Hc]; cbn;
    destruct (Z.ltb_spec 0 (Z.of_nat (df_index df) * Z.of_nat (length (df_columns df))));
    split; intros ?; try done; try (by eexists); nia.
Qed.

End ProfileFields.


(** ** Orchestrator: runs that go through, runs that stop half way *)

Section OrchestratorOutcomes.
Import Agent.
Context {F : Type} `{PyFloatOps F}.
Variable e : env F.
Variable self : Agent.

Ltac unfold_run :=
  unfold run_analysis, try_catch, run_analysis_try;
  unfold mbind, M_bind, mret, M_ret, lift, record, raise,
    Agent.save_analysis_result, Agent.update_session_status, execute; cbn.

Ltac run_step :=
  match goal with
  | |- context [match ?x with _ => _ end] =>
      match type of x with
      | py_result _ => destruct x eqn:?
      | option _ => destruct x eqn:?
      | bool => destruct x eqn:?
      end; cbn
  end.

Lemma generate_insights_returns (client : LLM.LLMClient) (post : LLM.transport)
    (context data_summary : string) :
  ∃ v, LLM.generate_insights client post context data_summary = Ret v.
Proof.
  unfold LLM.generate_insights. destruct (negb (LLM.available client)); [by eexists|].
  destruct (_make_request_returns client post
              (LLM.insights_prompt context data_summary) 800 (Qmake 7 10)) as [r ->].
  cbn. destruct (truthy r); by eexists.
Qed.

Lemma run_analysis_goes_through (w : world) (d : DataFrame)
    (data_summary profile_json : string) (insights report : json)
    (report_json : string) :
  run_goes_through e self w d data_summary profile_json insights report report_json →
  run_analysis e self w
  = (Ret true,
     {| database := database_after_run e self w profile_json insights report_json;
        history := history w ++ complete_run self |}).
Proof.
  intros [Hload Hne Hds Hins Hrep Hpj Hrj Hcommit].
  unfold run_analysis, try_catch, run_analysis_try;
  unfold mbind, M_bind, mret, M_ret, lift, record, raise,
    Agent.save_analysis_result, Agent.update_session_status, execute;
  cbn -[profile_dataset]. rewrite Hload; cbn -[profile_dataset]. rewrite Hne; cbn -[profile_dataset]. rewrite Hds; cbn -[profile_dataset].
  rewrite Hins; cbn -[profile_dataset]. rewrite Hrep; cbn -[profile_dataset]. rewrite Hpj; cbn -[profile_dataset].
  rewrite !length_app; cbn [length].
  rewrite (Hcommit (length (history w) + 1 + 1 + 1)%nat) by lia; cbn -[profile_dataset].
  rewrite !length_app; cbn [length].
  rewrite (Hcommit (length (history w) + 1 + 1 + 1 + 1)%nat) by lia; cbn -[profile_dataset].
  rewrite !length_app; cbn [length].
  rewrite (Hcommit (length (history w) + 1 + 1 + 1 + 1 + 1)%nat) by lia; cbn -[profile_dataset].
  rewrite Hrj; cbn -[profile_dataset].
  rewrite !length_app; cbn [length].
  rewrite (Hcommit (length (history w) + 1 + 1 + 1 + 1 + 1 + 1)%nat) by lia; cbn -[profile_dataset].
  rewrite !length_app; cbn [length].
  rewrite (Hcommit (length (history w) + 1 + 1 + 1 + 1 + 1 + 1 + 1)%nat) by lia; cbn -[profile_dataset].
  unfold database_after_run, complete_run. rewrite <- !app_assoc. cbn -[profile_dataset].
  replace (length (history w) + 1 + 1 + 1)%nat with (length (history w) + 3)%nat by lia.
  replace (length (history w) + 3 + 1)%nat with (length (history w) + 4)%nat by lia.
  replace (length (history w) + 4 + 1)%nat with (length (history w) + 5)%nat by lia.
  replace (length (history w) + 5 + 1)%nat with (length (history w) + 6)%nat by lia.
  reflexivity.
Qed.

(** X24. Insight generation is never fatal to a run.  Whatever the
    network does, [generate_insights] hands back some value; and when
    the dataset loads and is not empty, the profile and the report
    serialise, the composer returns a report and the five database
    statements commit, the run returns [True], stores four rows for the
    session in the order profile, charts (the text of an empty list),
    insights, report, and sets the session's status to 'completed'. *)
Theorem run_goes_through_whatever_the_network (w : world) (d : DataFrame)
    (data_summary profile_json : string) (insights report : json)
    (report_json : string) :
  (∃ v, LLM.generate_insights (llm self) (network e)
          ("Dataset name: " +:+ filename self) data_summary = Ret v)
  ∧ (run_goes_through e self w d data_summary profile_json insights report
       report_json →
     ∃ w' rows,
       run_analysis e self w = (Ret true, w')
       ∧ events_of_run w w' = complete_run self
       ∧ Storage.analysis_results (database w')
         = Storage.analysis_results (database w) ++ rows
       ∧ (let n := length (history w) in
          row_content <$> rows
          = [(session_id self, "profile", profile_json, current_timestamp e (n + 3));
             (session_id self, "charts", "[]", current_timestamp e (n + 4));
             (session_id self, "insights", py_str e insights,
              current_timestamp e (n + 5));
             (session_id self, "report", report_json, current_timestamp e (n + 6))])
       ∧ Storage.sessions (database w')
         = alter (Storage.set_status "completed") (session_id self)
                 (Storage.sessions (database w))).
Proof.
  split; [apply generate_insights_returns|].
  intros Hrun. pose proof (run_analysis_goes_through _ _ _ _ _ _ _ Hrun) as Hw.
  eexists _, _. split; [exact Hw|].
  unfold events_of_run, database_after_run; cbn.
  rewrite drop_app_length, <- !app_assoc. cbn. done.
Qed.

(** X25. A run that stops half way can leave results behind: whatever
    happens, the rows a run stores all belong to its session and their
    result types are the first zero to four of profile, charts,
    insights, report, in that order; nothing else is added to the
    table. *)
Theorem run_stores_a_prefix (w : world) :
  ∃ (b : bool) (w' : world) (rows : list Storage.result_row),
    run_analysis e self w = (Ret b, w')
    ∧ Storage.analysis_results (database w')
      = Storage.analysis_results (database w) ++ rows
    ∧ Storage.result_type <$> rows = saved_types (events_of_run w w')
    ∧ Forall (λ r, Storage.session_id r = session_id self) rows
    ∧ (Storage.result_type <$> rows)
      `prefix_of` ["profile"; "charts"; "insights"; "report"]
    ∧ (b = true → length rows = 4%nat).
Proof.
  unfold_run.
  repeat run_step;
    (eexists _, _, _; split; [reflexivity|];
     unfold events_of_run; cbn; rewrite <- ?app_assoc, drop_app_length; cbn;
     split; [first [reflexivity | symmetry; apply app_nil_r]|]; cbn;
     split; [reflexivity|];
     split; [by repeat constructor|];
     split; [by eexists | done]).
Qed.

Lemma has_key_new_row (session ty : string) (d : Storage.db)
    (now : Storage.timestamp) (session' ty' data : string) :
  Storage.has_key session ty (Storage.new_result_row d now session' ty' data)
  = String.eqb session' session && String.eqb ty' ty.
Proof. reflexivity. Qed.

Lemma order_by_last_wins (tie : Storage.tie_break)
    (rows : list Storage.result_row) (r : Storage.result_row) :
  (∀ b, b ∈ rows → (Storage.created_at b < Storage.created_at r)%nat) →
  Storage.order_by_created_at_desc_limit_1 tie None (rows ++ [r]) = Some r.
Proof.
  intros Hlater. rewrite order_by_app. cbn.
  pose proof (order_by_created_at_desc_limit_1_spec tie None rows) as Hq.
  destruct (Storage.order_by_created_at_desc_limit_1 tie None rows) as [b|]; [|done].
  destruct Hq as ([Hb | Hb] & _); [done|].
  apply Hlater, Nat.ltb_lt in Hb. unfold Storage.better. by rewrite Hb.
Qed.

(** X26. Read-back after a run that goes through: when the clock at the
    save of the insights is later than every insights row the session
    already had, the latest insights of the session are the text of
    this run's insights (the insights themselves when they are a text),
    and a registered session reads back with the status 'completed'. *)
Theorem run_then_read_back (tie : Storage.tie_break) (w : world) (d : DataFrame)
    (data_summary profile_json : string) (insights report : json)
    (report_json : string) :
  run_goes_through e self w d data_summary profile_json insights report report_json →
  later_than_stored (database w) (session_id self) "insights"
    (current_timestamp e (length (history w) + 5)) →
  ∃ w',
    run_analysis e self w = (Ret true, w')
    ∧ Storage.get_analysis_result tie (database w') (session_id self) "insights"
      = Some (py_str e insights)
    ∧ (∀ text, insights = JStr text → py_str e insights = text)
    ∧ (∀ info, Storage.get_session (database w) (session_id self) = Some info →
               Storage.get_session (database w') (session_id self)
               = Some (Storage.set_status "completed" info)).
Proof.
  intros Hrun Hlater. pose proof (run_analysis_goes_through _ _ _ _ _ _ _ Hrun) as Hw.
  eexists. split; [exact Hw|].
  split; [|split].
  - unfold Storage.get_analysis_result, Storage.fetch_latest, database_after_run; cbn.
    rewrite <- !app_assoc. cbn. rewrite !List.filter_app. cbn.
    rewrite !has_key_new_row, !String.eqb_refl. cbn.
    rewrite order_by_last_wins; [done|].
    intros b [Hb Hk]%list_elem_of_In%filter_In. cbn.
    apply has_key_true in Hk as [Hs Ht].
    by apply Hlater; [apply list_elem_of_In| |].
  - by intros text ->.
  - intros info Hinfo. unfold Storage.get_session, database_after_run in *; cbn.
    by rewrite lookup_alter_eq, Hinfo.
Qed.

(** X27. [Agent.__init__] after an upload: for the session just
    registered by [save_upload] the agent is built with the file name
    and path the upload stored; for a session id that is not registered
    the constructor raises [TypeError]. *)
Theorem agent_init_after_upload (cfg : Config) (secure_filename : string → string)
    (db0 db1 : Storage.db) (now : Storage.timestamp) (stamp name session : string)
    (path fname : string) :
  (Storage.save_upload cfg secure_filename db0 now stamp (Some name) session
     = Ret (db1, Some (path, fname)) →
   init cfg db1 session
   = Ret {| session_id := session; llm := LLM.init cfg;
            filename := fname; filepath := path |})
  ∧ (Storage.get_session db0 session = None → init cfg db0 session = Raise TypeError).
Proof.
  split.
  - unfold Storage.save_upload, Storage.insert_session, init, Storage.get_session.
    destruct (Storage.allowed_file cfg name); [|done].
    destruct (Storage.sessions db0 !! session); cbn; [done|].
    intros [= <- <- <-]. cbn. by rewrite lookup_insert_eq.
  - unfold init. by intros ->.
Qed.

End OrchestratorOutcomes.


(** ** Web layer: starting a run and showing its results *)

Section Routes.
Import Agent App.
Context {F : Type} `{PyFloatOps F}.
Variable cfg : Config.
Variable e : env F.
Variable str_exn : exn → string.

Ltac unfold_run :=
  unfold run_analysis, try_catch, run_analysis_try;
  unfold mbind, M_bind, mret, M_ret, lift, record, raise,
    Agent.save_analysis_result, Agent.update_session_status, execute; cbn.

Ltac run_step :=
  match goal with
  | |- context [match ?x with _ => _ end] =>
      match type of x with
      | py_result _ => destruct x eqn:?
      | option _ => destruct x eqn:?
      | bool => destruct x eqn:?
      end; cbn
  end.

Lemma run_analysis_sessions (agent : Agent) (w : world) :
  ∃ (b : bool) (w' : world),
    run_analysis e agent w = (Ret b, w')
    ∧ Storage.sessions (database w')
      = if b then alter (Storage.set_status "completed") (session_id agent)
                        (Storage.sessions (database w))
        else Storage.sessions (database w).
Proof.
  unfold_run. repeat run_step; by eexists _, _.
Qed.

Lemma init_session_id (d : Storage.db) (session : string) (agent : Agent) :
  init cfg d session = Ret agent →
  session_id agent = session ∧ is_Some (Storage.get_session d session).
Proof.
  unfold init. destruct (Storage.get_session d session); [|done].
  by intros [= <-].
Qed.

(** X28. When [start_analysis] answers success, the session of the
    cookie is registered and its status is 'completed', so the
    [analysis] view of the same cookie does not redirect: it renders
    the analysis page (or fails on stored text that is not JSON). *)
Theorem started_analysis_is_shown (tie : Storage.tie_break)
    (json_loads : string → py_result json) (cookie : option string)
    (w w' : world) (body : json) :
  start_analysis cfg e str_exn cookie w = (jsonify body 200, w') →
  (∃ session info,
     active_session cookie = Some session
     ∧ Storage.get_session (database w') session = Some info
     ∧ Storage.status info = "completed")
  ∧ (∀ endpoint,
       analysis tie json_loads cookie (database w') ≠ Ret (redirect endpoint))
  ∧ (∀ page, analysis tie json_loads cookie (database w') = Ret page →
             ∃ context, page = render_template "analysis.html" context).
Proof.
  unfold start_analysis, analysis.
  destruct (active_session cookie) as [session|]; [|done].
  destruct (init cfg (database w) session) as [agent|] eqn:Hinit; [|done].
  destruct (init_session_id _ _ _ Hinit) as [Hid [info0 Hinfo0]].
  destruct (run_analysis_sessions agent w) as (b & w1 & -> & Hs).
  destruct b; [|done]. intros [= <- <-].
  assert (Hinfo : Storage.get_session (database w1) session
                  = Some (Storage.set_status "completed" info0)).
  { unfold Storage.get_session in *. by rewrite Hs, Hid, lookup_alter_eq, Hinfo0. }
  rewrite Hinfo; cbn. split; [|split].
  - by eexists _, _.
  - intros endpoint. by repeat (destruct (json_loads _); cbn).
  - intros page. repeat (destruct (json_loads _); cbn); try done.
    intros [= <-]. by eexists.
Qed.

(** X29. When [start_analysis] answers anything but success, the
    session table is as it was; a session whose status was not
    'completed' is therefore still sent from the [analysis] view back to
    the overview, and a cookie without a session id is sent to the
    upload page. *)
Theorem failed_start_is_not_shown (tie : Storage.tie_break)
    (json_loads : string → py_result json) (cookie : option string)
    (w w' : world) (body : json) (code : Z) :
  start_analysis cfg e str_exn cookie w = (jsonify body code, w') →
  code ≠ 200 →
  Storage.sessions (database w') = Storage.sessions (database w)
  ∧ (∀ session info,
       active_session cookie = Some session →
       Storage.get_session (database w) session = Some info →
       Storage.status info ≠ "completed" →
       analysis tie json_loads cookie (database w') = Ret (redirect "overview"))
  ∧ (active_session cookie = None →
     analysis tie json_loads cookie (database w') = Ret (redirect "upload")).
Proof.
  unfold start_analysis. intros Hstart Hcode.
  assert (Hs : Storage.sessions (database w') = Storage.sessions (database w)).
  { destruct (active_session cookie) as [session|]; [|by injection Hstart as <- <- <-].
    destruct (init cfg (database w) session) as [agent|];
      [|by injection Hstart as <- <- <-].
    destruct (run_analysis_sessions agent w) as (b & w1 & Hrun & Hs1).
    rewrite Hrun in Hstart. destruct b; injection Hstart as <- <- <-; done. }
  split; [done|]. unfold analysis, Storage.get_session. split.
  - intros session info -> Hinfo Hst. rewrite Hs.
    unfold Storage.get_session in Hinfo. rewrite Hinfo.
    apply String.eqb_neq in Hst. by rewrite Hst.
  - by intros ->.
Qed.

End Routes.


(** ** The properties above at sample data *)

Section SampleRuns.
Import Samples MoreSamples.

Lemma allowed_file_by_extension_witness :
  Storage.allowed_file (cfg_of 5) ("sales.2024" +:+ "." +:+ "CSV") = true.
Proof.
  destruct (allowed_file_by_extension (cfg_of 5) "sales.2024" "CSV" eq_refl) as [-> _].
  reflexivity.
Defined.

Lemma save_then_get_latest_witness :
  Storage.get_analysis_result (λ _ _, false)
    (Storage.save_analysis_result one_result 12%nat "s1" "insights" "second")
    "s1" "insights" = Some "second".
Proof.
  apply save_then_get_latest. intros r Hin _ _.
  apply list_elem_of_singleton in Hin. subst r. cbn. lia.
Defined.

Lemma save_leaves_other_keys_witness :
  Storage.get_analysis_result (λ _ _, false)
    (Storage.save_analysis_result one_result 12%nat "s1" "report" "{}")
    "s1" "insights"
  = Storage.get_analysis_result (λ _ _, false) one_result "s1" "insights".
Proof.
  apply save_leaves_other_keys. right. discriminate.
Defined.

Lemma sessions_are_kept_witness :
  ∃ r', Storage.get_session
          (foldl Storage.exec (Agent.database uploaded_s1)
             [Storage.UpdateSessionStatus "s1" "completed";
              Storage.SaveAnalysisResult 5%nat "s1" "profile" "{}"]) "s1" = Some r'
        ∧ Storage.filename r' = "data.csv".
Proof.
  destruct (sessions_are_kept
              [Storage.UpdateSessionStatus "s1" "completed";
               Storage.SaveAnalysisResult 5%nat "s1" "profile" "{}"]
              (Agent.database uploaded_s1) "s1" s1_row)
    as (r' & Hr' & Hf & _).
  - vm_compute. reflexivity.
  - exists r'. split; [exact Hr' | exact Hf].
Defined.

Lemma allowed_file_is_supported_witness : Storage.supported "data.csv" = true.
Proof.
  apply (allowed_file_is_supported (cfg_of 5) header_only_files "data.csv").
  - intros x Hx. exact Hx.
  - reflexivity.
Defined.

Lemma analyze_with_ample_budget_witness :
  length (Analyzer.attempts
            (Analyzer.analyze_frame (cfg_of 7) all_ok
               (Analyzer.init (cfg_of 7) sales "s1"))) = 6%nat.
Proof.
  rewrite (analyze_with_ample_budget (cfg_of 7) all_ok
             (Analyzer.init (cfg_of 7) sales "s1")).
  - reflexivity.
  - unfold cfg_of; simpl. lia.
Defined.

Lemma chart_filenames_distinct_witness :
  String.eqb
    (Analyzer.filename (Analyzer.histogram_descriptor "d" (num_col "price" [])))
    (Analyzer.filename (Analyzer.histogram_descriptor "d" (num_col "cost" [])))
  = false.
Proof.
  destruct (String.eqb_spec
              (Analyzer.filename (Analyzer.histogram_descriptor "d" (num_col "price" [])))
              (Analyzer.filename (Analyzer.histogram_descriptor "d" (num_col "cost" []))))
    as [Heq | _]; [|reflexivity].
  apply (proj1 (chart_filenames_distinct "d" (num_col "price" []) (num_col "cost" [])
                  eq_refl eq_refl)) in Heq.
  discriminate Heq.
Defined.

Lemma ollama_ignores_sampling_settings_witness :
  LLM._make_request local_client (local_endpoint "ok") "Hello" 10 (Qmake 7 10)
  = LLM._make_request local_client (local_endpoint "ok") "Hello" 800 (Qmake 1 10).
Proof.
  apply (ollama_ignores_sampling_settings local_client (local_endpoint "ok")).
  reflexivity.
Defined.

Lemma hosted_reply_verbatim_witness :
  LLM.generate_insights hosted_client (chat_endpoint "  Sales rose.  ")
    "Dataset name: data.csv" "{}" = Ret (JStr "  Sales rose.  ").
Proof.
  eapply hosted_reply_verbatim.
  - reflexivity.
  - discriminate.
  - reflexivity.
  - reflexivity.
  - reflexivity.
  - reflexivity.
  - discriminate.
Defined.

Lemma local_reply_stripped_witness :
  LLM.generate_insights local_client
    (local_endpoint (no_break_space +:+ " Sales rose. " +:+ no_break_space))
    "Dataset name: data.csv" "{}" = Ret (JStr "Sales rose.").
Proof.
  eapply (proj1 (local_reply_stripped local_client
                   (local_endpoint (no_break_space +:+ " Sales rose. " +:+ no_break_space))
                   "Dataset name: data.csv" "{}" _ _
                   (no_break_space +:+ " Sales rose. " +:+ no_break_space)
                   eq_refl eq_refl eq_refl eq_refl eq_refl eq_refl)).
Defined.

(** A reply that is a no-break space and nothing else: the fallback. *)
Example no_break_space_reply_falls_back :
  LLM.generate_insights local_client (local_endpoint no_break_space)
    "Dataset name: data.csv" "{}" = Ret (JStr LLM._fallback_insights)
  ∧ all_space no_break_space = true.
Proof. split; reflexivity. Qed.

(** Three cells missing of 32: the score is at a tie, 90.625, and is
    rounded to the even digit. *)
Example score_at_a_tie :
  score_of_counts (F := Q) 32 3 = PyFloat (Qmake 9062 100).
Proof. reflexivity. Qed.

Lemma missing_values_bounds_witness :
  0 ≤ spec_missing_cells survey ≤ 5 * 2.
Proof.
  apply (missing_values_bounds (F := Q) survey).
  unfold well_formed. repeat constructor.
Defined.

Lemma working_env_goes_through :
  run_goes_through working_env agent_s1 uploaded_s1 survey "{ }" "{}"
    (JStr LLM._fallback_insights) (JObj [("title", JStr "Report")]) "{report}".
Proof.
  constructor; reflexivity.
Defined.

Lemma run_goes_through_whatever_the_network_witness :
  ∃ w', Agent.run_analysis working_env agent_s1 uploaded_s1 = (Ret true, w')
        ∧ Agent.events_of_run uploaded_s1 w' = Agent.complete_run agent_s1.
Proof.
  destruct (run_goes_through_whatever_the_network working_env agent_s1 uploaded_s1
              survey "{ }" "{}" (JStr LLM._fallback_insights)
              (JObj [("title", JStr "Report")]) "{report}") as [_ Hgo].
  destruct (Hgo working_env_goes_through) as (w' & rows & Hrun & Hev & _).
  exists w'. split; [exact Hrun | exact Hev].
Defined.

Lemma run_then_read_back_witness :
  ∃ w', Agent.run_analysis working_env agent_s1 uploaded_s1 = (Ret true, w')
        ∧ Storage.get_analysis_result (λ _ _, false) (Agent.database w') "s1" "insights"
          = Some LLM._fallback_insights.
Proof.
  destruct (run_then_read_back working_env agent_s1 (λ _ _, false) uploaded_s1
              survey "{ }" "{}" (JStr LLM._fallback_insights)
              (JObj [("title", JStr "Report")]) "{report}" working_env_goes_through)
    as (w' & Hrun & Hget & _).
  - intros r Hin. by apply elem_of_nil in Hin.
  - exists w'. split; [exact Hrun | exact Hget].
Defined.

Lemma started_analysis_is_shown_witness :
  ∃ session info,
    App.active_session (Some "s1") = Some session
    ∧ Storage.get_session
        (Agent.database
           (App.start_analysis (cfg_of 5) working_env str_exn (Some "s1")
              uploaded_s1).2) session = Some info
    ∧ Storage.status info = "completed".
Proof.
  eapply (started_analysis_is_shown (cfg_of 5) working_env str_exn (λ _ _, false)
            (λ _, Ret JNull) (Some "s1") uploaded_s1).
  vm_compute. reflexivity.
Defined.

Lemma failed_start_is_not_shown_witness :
  Storage.sessions
    (Agent.database
       (App.start_analysis (cfg_of 5) header_only_env str_exn (Some "s1") uploaded_s1).2)
  = Storage.sessions (Agent.database uploaded_s1).
Proof.
  eapply (failed_start_is_not_shown (cfg_of 5) header_only_env str_exn (λ _ _, false)
            (λ _, Ret JNull) (Some "s1") uploaded_s1).
  - vm_compute. reflexivity.
  - discriminate.
Defined.

End SampleRuns.
